(** * gotype-ish: the fallback import resolver and the command driver

    A shallow embedding of [importer.go] (the two-tier [Importer]) and of
    [gotype2.go] ([report], [getPkgFiles], [checkPkgFiles], [main]).

    Collaborators that live outside the repository (the compiled-package
    importer, [build.Default.Import], [parseFiles], [types.Config.Check],
    [os.Stat], [filepath.Abs], [packages.Load], ...) are fields of an
    environment record; every theorem quantifies over them. *)

From stdpp Require Import gmap strings list fin_maps.
From Stdlib Require Import ZArith Ascii String Lia.

Local Open Scope string_scope.
Local Open Scope Z_scope.

(** ** Go values shared by both files *)

Module Go.

(** [packages.Error]: [Pos] is "file:line:col", "file:line", "" or "-". *)
Record PackagesError : Type := mkPackagesError
  { Pos : string; Msg : string; Kind : Z }.

(** A non-nil value of the interface type [error], by dynamic type: either
    a [packages.Error] or anything else (an [*errors.errorString], an
    [*os.PathError], a [types.Error], ...), kept by its message. *)
Inductive errval : Type :=
| PkgErr (e : PackagesError)
| OtherErr (msg : string).

(** The interface type [error]: [None] is [nil]. *)
Definition error : Type := option errval.

(** [fmt.Errorf] with a constant format. *)
Definition Errorf (msg : string) : errval := OtherErr msg.

(** [*types.Package]: a pointer, possibly [nil]. *)
Inductive PackagePtr : Type :=
| nil_pkg
| pkg_at (addr : positive).

(** [strings.HasPrefix]:
    [len(s) >= len(prefix) && s[:len(prefix)] == prefix]. *)
Definition HasPrefix (s prefix : string) : bool :=
  (String.length prefix <=? String.length s)%nat
  && String.eqb (substring 0 (String.length prefix) s) prefix.

(** [strings.HasSuffix]:
    [len(s) >= len(suffix) && s[len(s)-len(suffix):] == suffix]. *)
Definition HasSuffix (s suffix : string) : bool :=
  (String.length suffix <=? String.length s)%nat
  && String.eqb
       (substring (String.length s - String.length suffix)
                  (String.length suffix) s)
       suffix.

(** [strings.Split(s, sep)] for a one-byte separator, which is how
    [report] calls it: the pieces of [s] between the occurrences of
    [sep]; always at least one piece. *)
Fixpoint Split (s : string) (sep : ascii) : list string :=
  match s with
  | EmptyString => [EmptyString]
  | String c rest =>
      if Ascii.eqb c sep then EmptyString :: Split rest sep
      else match Split rest sep with
           | [] => [String c EmptyString]
           | piece :: pieces => String c piece :: pieces
           end
  end.

(** Go's [int] on a 64-bit platform: two's complement wrap-around. *)
Definition int_wrap (z : Z) : Z := (z + 2 ^ 63) mod 2 ^ 64 - 2 ^ 63.

End Go.

Export Go.

(** ** importer.go *)

Module Resolver.

Definition ImportMode : Type := Z.

(** The interface [types.ImporterFrom] of the fast importer. *)
Record ImporterFrom : Type := mkImporterFrom
  { fast_Import : string -> PackagePtr * error;
    fast_ImportFrom : string -> string -> ImportMode -> PackagePtr * error }.

(** The fields of [build.Package] that [ImportFrom] reads. *)
Record BuildPackage : Type := mkBuildPackage
  { Dir : string; GoFiles : list string; CgoFiles : list string }.

(** A parsed file ([*ast.File]), kept by name. *)
Definition AstFile : Type := string.

(** What one call of [types.Config.Check] does, seen from the resolver:
    it asks its importer for packages, through either method of the
    interface, and finally returns a package and an error. *)
Inductive Engine : Type :=
| Return (pkg : PackagePtr) (err : error)
| AskImport (path : string) (k : PackagePtr * error -> Engine)
| AskImportFrom (path srcDir : string) (mode : ImportMode)
                (k : PackagePtr * error -> Engine).

(** [*types.Config], by the one method used. *)
Record TypesConfig : Type := mkTypesConfig
  { Check : string -> list AstFile -> Engine }.

(** Calls made to the collaborators, in order (a ghost record). *)
Inductive Event : Type :=
| EvFastImport (path : string)
| EvFastImportFrom (path fullDir : string) (mode : ImportMode)
| EvDiscover (path fullDir : string)
| EvParse (dir : string) (filenames : list string)
| EvCheck (path : string) (files : list AstFile).

(** Package-level collaborators: [path.Join], [build.Default.Import] and
    [parseFiles]. *)
Record Toolchain : Type := mkToolchain
  { Join : string -> string -> string;
    build_Import : string -> string -> Z -> BuildPackage * error;
    parseFiles : string -> list string -> list AstFile * error }.

(** [type Importer struct]; [calls] is the ghost record of collaborator
    calls. *)
Record Importer : Type := mkImporter
  { mainImporter : ImporterFrom;
    cwd : string;
    packages : gmap string PackagePtr;
    config : TypesConfig;
    calls : list Event }.

Definition note (ev : Event) (i : Importer) : Importer :=
  mkImporter (mainImporter i) (cwd i) (packages i) (config i)
             (calls i ++ [ev])%list.

(** [i.packages[path] = pkg] *)
Definition store (path : string) (pkg : PackagePtr) (i : Importer)
  : Importer :=
  mkImporter (mainImporter i) (cwd i) (<[path := pkg]> (packages i))
             (config i) (calls i).

(** [func (i *Importer) Import(path string)] *)
Definition Import (i : Importer) (path : string)
  : PackagePtr * error * Importer :=
  let '(pkg, err) := fast_Import (mainImporter i) path in
  (pkg, err, note (EvFastImport path) i).

Definition Outcome : Type := PackagePtr * error * Importer.

(** Running the type engine against the resolver: each request is served
    by the resolver's own methods and the answer is handed back. *)
Fixpoint runEngine
    (importFrom : Importer -> string -> string -> ImportMode
                  -> option Outcome)
    (e : Engine) (i : Importer) : option Outcome :=
  match e with
  | Return pkg err => Some (pkg, err, i)
  | AskImport path k =>
      let '(pkg, err, i') := Import i path in
      runEngine importFrom (k (pkg, err)) i'
  | AskImportFrom path srcDir mode k =>
      match importFrom i path srcDir mode with
      | None => None
      | Some (pkg, err, i') => runEngine importFrom (k (pkg, err)) i'
      end
  end.

Section WithToolchain.

Variable tc : Toolchain.

(** [func (i *Importer) ImportFrom(path, srcDir string, mode)].

    [fuel] bounds the depth of nested type checks (a check of a package
    whose imports need checks of their own); it is consumed only where
    [i.config.Check] is entered, and [None] means the bound was hit.

    The [err] assigned from [i.config.Check] is the one declared inside
    the [if] block; the function's last line returns [pkg, nil]. *)
Fixpoint ImportFrom (fuel : nat) (i : Importer) (path srcDir : string)
    (mode : ImportMode) {struct fuel} : option Outcome :=
  match packages i !! path with
  | Some pkg => Some (pkg, None, i)
  | None =>
      let fullDir := Join tc (cwd i) srcDir in
      let '(pkg, err) := fast_ImportFrom (mainImporter i) path fullDir mode in
      let i := note (EvFastImportFrom path fullDir mode) i in
      match err with
      | None => Some (pkg, None, store path pkg i)
      | Some _ =>
          let '(buildPkg, err) := build_Import tc path fullDir 0 in
          let i := note (EvDiscover path fullDir) i in
          match err with
          | Some e => Some (nil_pkg, Some e, i)
          | None =>
              let filenames := (GoFiles buildPkg ++ CgoFiles buildPkg)%list in
              let '(files, err) := parseFiles tc (Dir buildPkg) filenames in
              let i := note (EvParse (Dir buildPkg) filenames) i in
              match err with
              | Some e => Some (nil_pkg, Some e, i)
              | None =>
                  match fuel with
                  | O => None
                  | S fuel' =>
                      let i := note (EvCheck path files) i in
                      match runEngine (ImportFrom fuel')
                                      (Check (config i) path files) i with
                      | None => None
                      | Some (pkg, _err, i) =>
                          Some (pkg, None, store path pkg i)
                      end
                  end
              end
          end
      end
  end.

(** A request made to the resolver through either of its methods. *)
Inductive Request : Type :=
| ReqImport (path : string)
| ReqImportFrom (path srcDir : string) (mode : ImportMode).

Definition serve (fuel : nat) (r : Request) (i : Importer)
  : option Outcome :=
  match r with
  | ReqImport path => Some (Import i path)
  | ReqImportFrom path srcDir mode => ImportFrom fuel i path srcDir mode
  end.

(** A run of requests, one after the other, whatever each returns. *)
Fixpoint serveAll (fuel : nat) (rs : list Request) (i : Importer)
  : option Importer :=
  match rs with
  | [] => Some i
  | r :: rs' =>
      match serve fuel r i with
      | None => None
      | Some (_, _, i') => serveAll fuel rs' i'
      end
  end.

End WithToolchain.


(** What can happen to the resolver between two moments of a run, as
    far as the binding of [path] is concerned, with no call for [path]
    itself left pending across them: a complete request is served, at
    top level or for the type engine inside a pending check
    ([between_request]); a pending [ImportFrom] consults a collaborator
    (lines 29, 31, 38 and 42, [between_called]); or a pending
    [ImportFrom] for another path stores its result (line 44,
    [between_stored]). *)
Inductive Between (tc : Toolchain) (path : string)
  : Importer -> Importer -> Prop :=
| between_here (i : Importer) : Between tc path i i
| between_request (fuel : nat) (r : Request) (i i' j : Importer)
    (pkg : PackagePtr) (err : error) :
    serve tc fuel r i = Some (pkg, err, i') ->
    Between tc path i' j ->
    Between tc path i j
| between_called (ev : Event) (i j : Importer) :
    Between tc path (note ev i) j ->
    Between tc path i j
| between_stored (q : string) (v : PackagePtr) (i j : Importer) :
    q <> path ->
    Between tc path (store q v i) j ->
    Between tc path i j.

(** The kinds of collaborator calls made by [ImportFrom]. *)
Definition is_fast (ev : Event) : bool :=
  match ev with EvFastImportFrom _ _ _ => true | _ => false end.

Definition is_discover (ev : Event) : bool :=
  match ev with EvDiscover _ _ => true | _ => false end.

Definition is_parse (ev : Event) : bool :=
  match ev with EvParse _ _ => true | _ => false end.

Definition is_check (ev : Event) : bool :=
  match ev with EvCheck _ _ => true | _ => false end.

(** How many calls of one kind a record holds. *)
Definition tally (kind : Event -> bool) (evs : list Event) : nat :=
  List.length (List.filter kind evs).

(** The slow-path stages never outnumber the stage before them. *)
Definition staged (evs : list Event) : Prop :=
  (tally is_check evs <= tally is_parse evs)%nat
  /\ (tally is_parse evs <= tally is_discover evs)%nat
  /\ (tally is_discover evs <= tally is_fast evs)%nat.

Definition grows_staged (i i' : Importer) : Prop :=
  exists evs, calls i' = (calls i ++ evs)%list /\ staged evs.

(** The fields set when the resolver is built are never assigned. *)
Definition same_setup (i i' : Importer) : Prop :=
  mainImporter i' = mainImporter i
  /\ cwd i' = cwd i
  /\ config i' = config i.

(** The resolver state right before [i.config.Check] is entered on the
    slow path of [ImportFrom]. *)
Definition at_check (tc : Toolchain) (i : Importer) (path srcDir : string)
    (mode : ImportMode) (bp : BuildPackage) (files : list AstFile)
  : Importer :=
  let fullDir := Join tc (cwd i) srcDir in
  note (EvCheck path files)
    (note (EvParse (Dir bp) (GoFiles bp ++ CgoFiles bp)%list)
       (note (EvDiscover path fullDir)
          (note (EvFastImportFrom path fullDir mode) i))).

End Resolver.

(** ** gotype2.go *)

Module Driver.

(** [os.FileInfo], by the one method used. *)
Record FileInfo : Type := mkFileInfo { IsDir : bool }.

(** [packages.LoadMode], by its named presets. *)
Inductive LoadMode : Type :=
| LoadFiles | LoadImports | LoadTypes | LoadSyntax | LoadAllSyntax.

(** The fields of [packages.Config] that [checkPkgFiles] sets. *)
Record PackagesConfig : Type := mkPackagesConfig
  { Dir : string; Mode : LoadMode; Tests : bool }.

(** [*packages.Package], by the one field read. *)
Record RootPackage : Type := mkRootPackage
  { Errors : list PackagesError }.

(** The operating system and the libraries the driver calls. *)
Record System : Type := mkSystem
  { os_Stat : string -> FileInfo * error;
    os_Getwd : string * error;
    filepath_Dir : string -> string;
    filepath_Abs : string -> string * error;
    packages_Load : PackagesConfig -> string -> list RootPackage * error }.

(** The command-line flags [-a], [-pkg-context] and [-w]. *)
Record Flags : Type := mkFlags
  { autoFiles : bool; usePkgContext : bool; workingDir : string }.

(** The package-level variable [errorCount] and the lines [report] has
    written to standard error; [loads] is a ghost record of the calls
    to [packages.Load]. *)
Record RunState : Type := mkRunState
  { errorCount : Z;
    stderr : list string;
    loads : list (PackagesConfig * string) }.

(** [var errorCount = 0], nothing written yet. *)
Definition start : RunState := mkRunState 0 [] [].

(** The method [Error()] of an error value; for [packages.Error] it is
    [pos + ": " + err.Msg] with ["-"] for an empty [Pos]. *)
Definition Error_string (err : errval) : string :=
  match err with
  | PkgErr e =>
      (if String.eqb (Pos e) "" then "-" else Pos e) ++ ": " ++ Msg e
  | OtherErr msg => msg
  end.

(** [fmt.Fprintln(os.Stderr, err); errorCount++] *)
Definition print_and_count (err : errval) (st : RunState) : RunState :=
  mkRunState (int_wrap (errorCount st + 1))
             (stderr st ++ [Error_string err])%list
             (loads st).

(** [func report(err error, pathRestriction string)] *)
Definition report (err : errval) (pathRestriction : string)
    (st : RunState) : RunState :=
  if negb (String.eqb pathRestriction "") then
    match err with
    | PkgErr pkgErr =>
        let errFileParts := Split (Pos pkgErr) ":" in
        let errFilePath := hd "" errFileParts in
        if negb (String.eqb errFilePath pathRestriction) then st
        else print_and_count err st
    | OtherErr _ => print_and_count err st
    end
  else print_and_count err st.

(** The decision [report] takes. *)
Definition admits (err : errval) (pathRestriction : string) : bool :=
  String.eqb pathRestriction ""
  || match err with
     | PkgErr e => String.eqb (hd "" (Split (Pos e) ":")) pathRestriction
     | OtherErr _ => true
     end.

(** Whether a diagnostic carries a file position: only a
    [packages.Error] has a [Pos], and [""] and ["-"] stand for none. *)
Definition has_position (err : errval) : bool :=
  match err with
  | PkgErr e => negb (String.eqb (Pos e) "") && negb (String.eqb (Pos e) "-")
  | OtherErr _ => false
  end.

(** The counter equals the number of lines written, modulo wrap-around. *)
Definition counted (st : RunState) : Prop :=
  errorCount st = int_wrap (Z.of_nat (List.length (stderr st))).

(** The text of a position before its first [":"], as [report] reads
    it. *)
Definition file_part (pos : string) : string := hd "" (Split pos ":").

(** All the errors of the loaded roots, in the order the loop of
    [checkPkgFiles] visits them. *)
Definition all_errors (roots : list RootPackage) : list PackagesError :=
  List.concat (List.map Errors roots).

(** How a function ends: it returns, or it panics. *)
Inductive Ending (A : Type) : Type :=
| Done (a : A)
| Panic (msg : string).
Arguments Done {A} a.
Arguments Panic {A} msg.

(** How the process ends: [os.Exit(code)], a return from [main], or an
    unrecovered panic. *)
Inductive Exit : Type :=
| os_Exit (code : Z)
| Returned
| Panicked (msg : string).

(** The exit status seen by the caller: a return from [main] is 0 and
    an unrecovered panic is 2. *)
Definition exit_status (x : Exit) : Z :=
  match x with
  | os_Exit code => code
  | Returned => 0
  | Panicked _ => 2
  end.

Section WithSystem.

Variable sys : System.
Variable flags : Flags.

(** [func getPkgFiles(args []string, useContext bool)] *)
Definition getPkgFiles (args : list string) (useContext : bool)
  : string * string * error :=
  let too_many := ("", "", Some (Errorf "cannot specify more than one path")) in
  if (List.length args =? 1)%nat then
    let path := hd "" args in
    let '(info, err) := os_Stat sys path in
    match err with
    | Some e => ("", "", Some e)
    | None =>
        if IsDir info then (path, "", None)
        else if useContext then
          let dirName := filepath_Dir sys path in
          let dirName :=
            if HasPrefix path "./" then "./" ++ dirName else dirName in
          (dirName, path, None)
        else too_many
    end
  else too_many.

(** The local variable [includeTests]. *)
Definition includeTests (targetFile : string) : bool :=
  autoFiles flags
  && negb (String.eqb targetFile "")
  && HasSuffix targetFile "_test.go".

(** The working directory [checkPkgFiles] settles on, and the
    configuration it builds for [packages.Load]. *)
Definition chosen_wd : string :=
  if String.eqb (workingDir flags) "" then (os_Getwd sys).1
  else workingDir flags.

Definition load_config (targetFile : string) : PackagesConfig :=
  mkPackagesConfig chosen_wd LoadTypes (includeTests targetFile).

(** [func checkPkgFiles(pkgPath, targetFile string)] *)
Definition checkPkgFiles (pkgPath targetFile : string) (st : RunState)
  : Ending RunState :=
  let wd :=
    if String.eqb (workingDir flags) "" then
      match os_Getwd sys with
      | (_, Some e) => Panic (Error_string e)
      | (wd, None) => Done wd
      end
    else Done (workingDir flags) in
  match wd with
  | Panic msg => Panic msg
  | Done wd =>
      let cfg := mkPackagesConfig wd LoadTypes (includeTests targetFile) in
      let '(targetFile, err) := filepath_Abs sys targetFile in
      match err with
      | Some e => Done (report e targetFile st)
      | None =>
          let '(roots, err) := packages_Load sys cfg pkgPath in
          let st := mkRunState (errorCount st) (stderr st)
                               (loads st ++ [(cfg, pkgPath)])%list in
          match err with
          | Some e => Done (report e targetFile st)
          | None =>
              Done (fold_left
                      (fun st root =>
                         fold_left
                           (fun st err => report (PkgErr err) targetFile st)
                           (Errors root) st)
                      roots st)
          end
      end
  end.

(** [func main()], after [flag.Parse()]; [args] is [flag.Args()]. *)
Definition main (args : list string) : Exit * RunState :=
  let '(pkgPath, targetFile, err) := getPkgFiles args (usePkgContext flags) in
  match err with
  | Some e => (os_Exit 2, report e "" start)
  | None =>
      match checkPkgFiles pkgPath targetFile start with
      | Panic msg => (Panicked msg, start)
      | Done st =>
          if errorCount st >? 0 then (os_Exit 2, st) else (Returned, st)
      end
  end.

End WithSystem.

End Driver.

(** ** Sample worlds *)

(** [path.Join] of two clean paths. *)
Definition join2 (a b : string) : string :=
  if String.eqb b "" then a
  else if HasPrefix b "/" then a ++ b
  else a ++ "/" ++ b.

(** A concrete toolchain and resolver used to exercise the theorems:
    ["fmt"] is available compiled; ["example.com/a"] only as source and
    imports ["fmt"]; ["example.com/bad"] only as source, with a type
    error; ["example.com/broken"] only as source, with a syntax error;
    nothing else exists. *)
Module Sample.
Import Resolver.

Definition fast : ImporterFrom :=
  mkImporterFrom
    (fun path =>
       if String.eqb path "fmt" then (pkg_at 1, None)
       else (nil_pkg, Some (OtherErr "can't find import")))
    (fun path _ _ =>
       if String.eqb path "fmt" then (pkg_at 1, None)
       else (nil_pkg, Some (OtherErr "can't find import"))).

Definition tc : Toolchain :=
  mkToolchain
    join2
    (fun path _ _ =>
       if String.eqb path "example.com/a"
       then (mkBuildPackage "/src/a" ["a.go"] [], None)
       else if String.eqb path "example.com/bad"
       then (mkBuildPackage "/src/bad" ["bad.go"] [], None)
       else if String.eqb path "example.com/broken"
       then (mkBuildPackage "/src/broken" ["broken.go"] [], None)
       else (mkBuildPackage "" [] [],
             Some (OtherErr "cannot find package")))
    (fun dir filenames =>
       if String.eqb dir "/src/broken"
       then ([], Some (OtherErr "broken.go:1:1: expected 'package'"))
       else (filenames, None)).

Definition cfg : TypesConfig :=
  mkTypesConfig
    (fun path _ =>
       if String.eqb path "example.com/a"
       then AskImportFrom "fmt" "/src/a" 0
              (fun _ => Return (pkg_at 2) None)
       else Return (pkg_at 3) (Some (OtherErr "undefined: x"))).

Definition fresh : Importer := mkImporter fast "/work" ∅ cfg [].

End Sample.

(** A second toolchain, with an import cycle: ["p"] and ["q"] exist only
    as source and import each other, and the fast importer finds ["p"]
    only when asked from the directory of ["q"]. *)
Module Knot.
Import Resolver.

Definition fast : ImporterFrom :=
  mkImporterFrom
    (fun _ => (nil_pkg, Some (OtherErr "can't find import")))
    (fun path dir _ =>
       if String.eqb path "p" && String.eqb dir "/work/q"
       then (pkg_at 7, None)
       else (nil_pkg, Some (OtherErr "can't find import"))).

Definition tc : Toolchain :=
  mkToolchain
    join2
    (fun path _ _ => (mkBuildPackage path [path ++ ".go"] [], None))
    (fun _ filenames => (filenames, None)).

Definition cfg : TypesConfig :=
  mkTypesConfig
    (fun path _ =>
       if String.eqb path "p"
       then AskImportFrom "q" "p" 0 (fun _ => Return (pkg_at 8) None)
       else AskImportFrom "p" "q" 0 (fun _ => Return (pkg_at 9) None)).

Definition fresh : Importer := mkImporter fast "/work" ∅ cfg [].






End Knot.

(** A concrete system used to exercise the theorems: the working
    directory is [/w]; [pkg] is a directory and every [*.go] name a file;
    loading reports two type errors, a parse error at a relative
    position and a package-level error without a position. *)
Module Bench.
Import Driver.

Definition e_a : PackagesError := mkPackagesError "/w/a.go:3:1" "undefined: x" 3.
Definition e_b : PackagesError := mkPackagesError "/w/b.go:1:1" "undefined: y" 3.
Definition e_rel : PackagesError := mkPackagesError "a.go:7:2" "expected ';'" 2.
Definition e_pkg : PackagesError := mkPackagesError "" "no Go files in /w" 1.

(** [filepath.Abs] under the working directory [/w], on clean paths. *)
Definition abs (p : string) : string * error :=
  if String.eqb p "" then ("/w", None)
  else if HasPrefix p "/" then (p, None)
  else ("/w/" ++ p, None).

Definition stat (p : string) : FileInfo * error :=
  if String.eqb p "pkg" then (mkFileInfo true, None)
  else if HasSuffix p ".go" then (mkFileInfo false, None)
  else (mkFileInfo false,
        Some (OtherErr "stat: no such file or directory")).

Definition load (_ : PackagesConfig) (_ : string)
  : list RootPackage * error :=
  ([mkRootPackage [e_a; e_b]; mkRootPackage [e_rel; e_pkg]], None).

Definition sys : System :=
  mkSystem stat ("/w", None) (fun _ => ".") abs load.

(** [filepath.Abs] when the working directory cannot be determined:
    an absolute path is returned as it is, any other path fails with
    the error of [os.Getwd]. *)
Definition abs_lost (p : string) : string * error :=
  if HasPrefix p "/" then (p, None)
  else ("", Some (OtherErr "getwd: no such file or directory")).

(** The same system when the working directory cannot be determined. *)
Definition sys_lost : System :=
  mkSystem stat ("", Some (OtherErr "getwd: no such file or directory"))
           (fun _ => ".") abs_lost load.

(** A system whose package loads cleanly. *)
Definition sys_clean : System :=
  mkSystem stat ("/w", None) (fun _ => ".") abs
           (fun _ _ => ([mkRootPackage []], None)).

Definition flags : Flags := mkFlags true true "".

(** A system on which [packages.Load] itself fails. *)
Definition sys_down : System :=
  mkSystem stat ("/w", None) (fun _ => ".") abs
           (fun _ _ => ([], Some (OtherErr "go list: exit status 1"))).

(** The flags with the working directory given by [-w]. *)
Definition flags_w : Flags := mkFlags true true "/elsewhere".

(** A system whose package has an error in a test file, which is
    loaded only when test files are asked for. *)
Definition e_test : PackagesError :=
  mkPackagesError "/w/a_test.go:2:1" "undefined: helper" 3.

Definition load_tests (cfg : PackagesConfig) (_ : string)
  : list RootPackage * error :=
  if Tests cfg then ([mkRootPackage [e_test]], None)
  else ([mkRootPackage []], None).

Definition sys_tests : System :=
  mkSystem stat ("/w", None) (fun _ => ".") abs load_tests.

End Bench.

(** ** Properties of the resolver *)

Module ResolverFacts.
Import Resolver.

Section Facts.

Variable tc : Toolchain.

(** One unfolding of [ImportFrom], whatever the fuel. *)
Lemma ImportFrom_hit fuel i path srcDir mode pkg :
  packages i !! path = Some pkg ->
  ImportFrom tc fuel i path srcDir mode = Some (pkg, None, i).
Proof.
  intros Hhit. destruct fuel; simpl; rewrite Hhit; reflexivity.
Qed.








(** A call that returns without an error leaves its result under [path]. *)
Lemma ImportFrom_stored fuel i path srcDir mode pkg i' :
  ImportFrom tc fuel i path srcDir mode = Some (pkg, None, i') ->
  packages i' !! path = Some pkg.
Proof.
  intros Hcall.
  destruct fuel as [|fuel]; simpl in Hcall;
    destruct (packages i !! path) as [hit|] eqn:Hlook;
    try (injection Hcall as <- <-; exact Hlook);
    destruct (fast_ImportFrom _ _ _ _) as [p0 [e0|]];
    try (injection Hcall as <- <-; simpl; apply lookup_insert_eq);
    destruct (build_Import _ _ _ _) as [bp [e1|]]; try discriminate;
    destruct (parseFiles _ _ _) as [fs [e2|]]; try discriminate.
  match type of Hcall with
  | context [runEngine ?f ?e ?j] =>
      destruct (runEngine f e j) as [[[p3 e3] i3]|]; [|discriminate]
  end.
  injection Hcall as <- <-. simpl. apply lookup_insert_eq.
Qed.

(** The only errors [ImportFrom] ever returns are those of source
    discovery and of parsing, each with a nil package. *)
Lemma ImportFrom_error_origin fuel i path srcDir mode pkg e i' :
  ImportFrom tc fuel i path srcDir mode = Some (pkg, Some e, i') ->
  let fullDir := Join tc (cwd i) srcDir in
  let found := build_Import tc path fullDir 0 in
  pkg = nil_pkg
  /\ (found.2 = Some e
      \/ (parseFiles tc (Dir found.1)
            (GoFiles found.1 ++ CgoFiles found.1)%list).2 = Some e).
Proof.
  intros Hcall. cbv zeta.
  destruct fuel as [|fuel]; simpl in Hcall;
    destruct (packages i !! path) as [hit|]; try discriminate;
    destruct (fast_ImportFrom _ _ _ _) as [p0 [e0|]]; try discriminate;
    destruct (build_Import _ _ _ _) as [bp [e1|]]; simpl;
    try (injection Hcall as <- <- _; split; [reflexivity | left; reflexivity]);
    destruct (parseFiles _ _ _) as [fs [e2|]]; simpl;
    try (injection Hcall as <- <- _; split; [reflexivity | right; reflexivity]);
    try discriminate.
  match type of Hcall with
  | context [runEngine ?f ?e ?j] =>
      destruct (runEngine f e j) as [[[p3 e3] i3]|]; discriminate
  end.
Qed.




Lemma Between_trans path i j k :
  Between tc path i j -> Between tc path j k -> Between tc path i k.
Proof.
  induction 1 as [i | fuel r i i' j pkg err Hserve _ IH
                  | ev i j _ IH | q v0 i j Hne _ IH];
    intros Hjk.
  - exact Hjk.
  - eapply between_request; [exact Hserve | apply IH, Hjk].
  - apply between_called with (ev := ev). apply IH, Hjk.
  - apply between_stored with (q := q) (v := v0); [exact Hne|].
    apply IH, Hjk.
Qed.


(** So is the way from the start of [ImportFrom] into its type check. *)
Lemma Between_at_check path i p srcDir mode bp files :
  Between tc path i (at_check tc i p srcDir mode bp files).
Proof.
  unfold at_check.
  do 4 (eapply between_called). apply between_here.
Qed.

End Facts.

End ResolverFacts.

(** ** Claims about the resolver *)

Section ResolverClaims.
Import Resolver ResolverFacts.

(** C1 (the code departs from the claim). The claim: a failed type check
    of the discovered package is returned by [ImportFrom] as its error.
    On the sample toolchain, ["example.com/bad"] is found and parsed, its
    type check returns a package together with the error
    ["undefined: x"], and [ImportFrom] returns that package with a nil
    error and stores it in the cache. *)
Theorem ImportFrom_drops_Check_error :
  Check Sample.cfg "example.com/bad" ["bad.go"]
  = Return (pkg_at 3) (Some (OtherErr "undefined: x"))
  /\ exists i',
      ImportFrom Sample.tc 1 Sample.fresh "example.com/bad" "" 0
      = Some (pkg_at 3, None, i')
      /\ packages i' !! "example.com/bad" = Some (pkg_at 3)
      /\ calls i'
         = [EvFastImportFrom "example.com/bad" "/work" 0;
            EvDiscover "example.com/bad" "/work";
            EvParse "/src/bad" ["bad.go"];
            EvCheck "example.com/bad" ["bad.go"]].
Proof.
  split; [reflexivity|].
  exists (store "example.com/bad" (pkg_at 3)
            (mkImporter Sample.fast "/work" ∅ Sample.cfg
               [EvFastImportFrom "example.com/bad" "/work" 0;
                EvDiscover "example.com/bad" "/work";
                EvParse "/src/bad" ["bad.go"];
                EvCheck "example.com/bad" ["bad.go"]])).
  split; [reflexivity|].
  split; [apply lookup_insert_eq | reflexivity].
Qed.







(** C7. When [path] is not cached and the fast importer fails, a failure
    of source discovery, or a failure of parsing after a successful
    discovery, is what [ImportFrom] returns (with a nil package), and
    the cache is left as it was; this holds for every fuel, since the
    type engine is never reached. *)
Theorem ImportFrom_slow_failure_not_cached
    (tc : Toolchain) (fuel : nat) (i : Importer) (path srcDir : string)
    (mode : ImportMode) (e : errval) :
  let fullDir := Join tc (cwd i) srcDir in
  let found := build_Import tc path fullDir 0 in
  let filenames := (GoFiles found.1 ++ CgoFiles found.1)%list in
  packages i !! path = None ->
  (fast_ImportFrom (mainImporter i) path fullDir mode).2 <> None ->
  (found.2 = Some e
   \/ (found.2 = None
       /\ (parseFiles tc (Dir found.1) filenames).2 = Some e)) ->
  exists i',
    ImportFrom tc fuel i path srcDir mode = Some (nil_pkg, Some e, i')
    /\ packages i' = packages i.
Proof.
  intros fullDir found filenames Hmiss Hfast Hfail.
  subst filenames found fullDir.
  destruct fuel; simpl; rewrite Hmiss;
    destruct (fast_ImportFrom _ _ _ _) as [p0 [e0|]]; simpl in Hfast;
    try congruence;
    destruct (build_Import _ _ _ _) as [bp [e1|]]; simpl in Hfail;
    (destruct Hfail as [Hd | [Hd Hp]]; try discriminate);
    try (injection Hd as ->; eexists; split; reflexivity);
    destruct (parseFiles _ _ _) as [fs [e2|]]; simpl in Hp;
    try discriminate;
    injection Hp as ->; eexists; split; reflexivity.
Qed.

Lemma ImportFrom_slow_failure_not_cached_witness :
  (exists i',
      ImportFrom Sample.tc 5 Sample.fresh "example.com/none" "" 0
      = Some (nil_pkg, Some (OtherErr "cannot find package"), i')
      /\ packages i' = packages Sample.fresh)
  /\ (exists i',
      ImportFrom Sample.tc 5 Sample.fresh "example.com/broken" "" 0
      = Some (nil_pkg,
              Some (OtherErr "broken.go:1:1: expected 'package'"), i')
      /\ packages i' = packages Sample.fresh).
Proof.
  split.
  - apply (ImportFrom_slow_failure_not_cached Sample.tc 5 Sample.fresh
             "example.com/none" "" 0).
    + reflexivity.
    + discriminate.
    + left. reflexivity.
  - apply (ImportFrom_slow_failure_not_cached Sample.tc 5 Sample.fresh
             "example.com/broken" "" 0).
    + reflexivity.
    + discriminate.
    + right. split; reflexivity.
Defined.

(** C10. [Import] hands back exactly the package and the error of the
    fast importer's [Import]; its answer does not depend on what the
    cache holds, it leaves the cache as it was, and the only
    collaborator it calls is the fast importer (no discovery, parsing or
    type check). *)
Theorem Import_is_fast_importer (i : Importer) (path : string) :
  (Import i path).1 = fast_Import (mainImporter i) path
  /\ (forall cache : gmap string PackagePtr,
        (Import (mkImporter (mainImporter i) (cwd i) cache (config i)
                            (calls i)) path).1
        = (Import i path).1)
  /\ packages (Import i path).2 = packages i
  /\ calls (Import i path).2 = (calls i ++ [EvFastImport path])%list.
Proof.
  unfold Import. simpl.
  destruct (fast_Import (mainImporter i) path) as [pkg err].
  repeat split.
Qed.

End ResolverClaims.

(** ** Properties of the driver *)

Module DriverFacts.
Import Driver.

(** *** Strings *)

Lemma append_nil_l (s : string) : "" ++ s = s.
Proof. reflexivity. Qed.

Lemma append_cons (c : ascii) (s t : string) :
  String c s ++ t = String c (s ++ t).
Proof. reflexivity. Qed.

Lemma substring_all (s : string) : substring 0 (String.length s) s = s.
Proof. induction s as [|c s IH]; simpl; [reflexivity | f_equal; exact IH]. Qed.

Lemma substring_skip (pre s : string) (m : nat) :
  substring (String.length pre) m (pre ++ s) = substring 0 m s.
Proof. induction pre as [|c pre IH]; simpl; [reflexivity | exact IH]. Qed.

Lemma string_length_app (a b : string) :
  String.length (a ++ b) = (String.length a + String.length b)%nat.
Proof. induction a as [|c a IH]; simpl; [reflexivity | f_equal; exact IH]. Qed.

Lemma substring_split (s : string) :
  forall n m : nat,
    (n + m)%nat = String.length s ->
    s = substring 0 n s ++ substring n m s.
Proof.
  induction s as [|c s IH]; intros n m Hlen; simpl in Hlen.
  - destruct n, m; try discriminate. reflexivity.
  - destruct n as [|n]; simpl.
    + destruct m as [|m]; [discriminate|]. injection Hlen as Hlen.
      subst m. rewrite append_nil_l. f_equal. symmetry.
      apply substring_all.
    + injection Hlen as Hlen. rewrite append_cons. f_equal.
      apply IH, Hlen.
Qed.

(** [HasSuffix] holds exactly of the strings that end in [suffix]. *)
Lemma HasSuffix_spec (s suffix : string) :
  HasSuffix s suffix = true <-> exists stem, s = stem ++ suffix.
Proof.
  unfold HasSuffix. rewrite andb_true_iff, Nat.leb_le, String.eqb_eq.
  split.
  - intros [Hle Hsub].
    exists (substring 0 (String.length s - String.length suffix) s).
    rewrite <- Hsub at 2. apply substring_split. lia.
  - intros [stem ->]. rewrite string_length_app. split; [lia|].
    replace (String.length stem + String.length suffix
             - String.length suffix)%nat
      with (String.length stem) by lia.
    rewrite substring_skip. apply substring_all.
Qed.

Lemma Split_nonempty (s : string) (sep : ascii) : Split s sep <> [].
Proof.
  destruct s as [|c s]; simpl; [discriminate|].
  destruct (Ascii.eqb c sep); [discriminate|].
  destruct (Split s sep); discriminate.
Qed.

(** The first piece is the text before the first separator. *)
Lemma Split_head (file rest : string) (sep : ascii) :
  (forall pre post, file <> pre ++ String sep post) ->
  hd "" (Split (file ++ String sep rest) sep) = file.
Proof.
  induction file as [|c file IH]; intros Hfree.
  - rewrite append_nil_l. simpl. rewrite Ascii.eqb_refl. reflexivity.
  - rewrite append_cons. simpl.
    destruct (Ascii.eqb c sep) eqn:Hc.
    + apply Ascii.eqb_eq in Hc. subst c.
      exfalso. apply (Hfree "" file). reflexivity.
    + assert (IH' : hd "" (Split (file ++ String sep rest) sep) = file).
      { apply IH. intros pre post ->.
        apply (Hfree (String c pre) post). reflexivity. }
      destruct (Split (file ++ String sep rest) sep) as [|p ps] eqn:Hs.
      * exfalso. eapply Split_nonempty, Hs.
      * simpl in *. f_equal. exact IH'.
Qed.

(** *** The counter *)

Lemma int_wrap_succ (z : Z) : int_wrap (int_wrap z + 1) = int_wrap (z + 1).
Proof.
  unfold int_wrap.
  replace ((z + 2 ^ 63) mod 2 ^ 64 - 2 ^ 63 + 1 + 2 ^ 63)
    with ((z + 2 ^ 63) mod 2 ^ 64 + 1) by lia.
  rewrite Z.add_mod_idemp_l by lia.
  f_equal. f_equal. lia.
Qed.

Lemma int_wrap_small (z : Z) : 0 <= z < 2 ^ 63 -> int_wrap z = z.
Proof.
  intros Hz. unfold int_wrap. rewrite Z.mod_small; lia.
Qed.

(** *** The filter *)

Lemma report_admits err r st :
  report err r st
  = if admits err r then print_and_count err st else st.
Proof.
  unfold report, admits.
  destruct (String.eqb r ""); simpl; [reflexivity|].
  destruct err as [e|msg]; [|reflexivity].
  destruct (String.eqb _ r); reflexivity.
Qed.

Lemma print_and_count_changes err st : print_and_count err st <> st.
Proof.
  intros Heq. apply (f_equal (fun s => List.length (stderr s))) in Heq.
  simpl in Heq. rewrite List.length_app in Heq. simpl in Heq. lia.
Qed.

Lemma counted_start : counted start.
Proof. reflexivity. Qed.

Lemma counted_print err st : counted st -> counted (print_and_count err st).
Proof.
  unfold counted. simpl. intros ->.
  rewrite List.length_app. simpl.
  rewrite int_wrap_succ. f_equal. lia.
Qed.

Lemma counted_report err r st : counted st -> counted (report err r st).
Proof.
  intros H. rewrite report_admits.
  destruct (admits err r); [apply counted_print, H | exact H].
Qed.

Lemma loads_report err r st : loads (report err r st) = loads st.
Proof.
  rewrite report_admits. destruct (admits err r); reflexivity.
Qed.

(** Any property kept by [report] is kept by the loop over the roots. *)
Lemma report_loop_inv (P : RunState -> Prop) (r : string) :
  (forall err st, P st -> P (report err r st)) ->
  forall roots st,
    P st ->
    P (fold_left
         (fun st root =>
            fold_left (fun st err => report (PkgErr err) r st)
                      (Errors root) st)
         roots st).
Proof.
  intros Hstep roots.
  induction roots as [|root roots IH]; intros st Hst; simpl; [exact Hst|].
  apply IH.
  generalize dependent st.
  induction (Errors root) as [|e es IHe]; intros st Hst; simpl;
    [exact Hst|].
  apply IHe, Hstep, Hst.
Qed.

End DriverFacts.

(** ** Claims about the driver *)

Section DriverClaims.
Import Driver DriverFacts.

(** C2 (the code departs from the claim). The claim: with no path
    argument [getPkgFiles] returns no error and the unit is read from
    standard input, ending with exit status 0. In the code, whatever the
    system and the flags, [getPkgFiles] with no argument returns the
    error "cannot specify more than one path", and [main] reports it and
    exits with status 2. *)
Theorem getPkgFiles_no_paths_is_error
    (sys : System) (flags : Flags) (useContext : bool) :
  getPkgFiles sys [] useContext
  = ("", "", Some (Errorf "cannot specify more than one path"))
  /\ main sys flags []
     = (os_Exit 2, mkRunState 1 ["cannot specify more than one path"] [])
  /\ exit_status (main sys flags []).1 = 2.
Proof. repeat split. Qed.

(** C3, as stated, fails: a package error without a position is dropped
    under a non-empty restriction path. *)
Lemma report_drops_positionless_package_error :
  has_position (PkgErr Bench.e_pkg) = false
  /\ report (PkgErr Bench.e_pkg) "/w/a.go" start = start
  /\ report (PkgErr Bench.e_pkg) "/w/a.go" start
     <> print_and_count (PkgErr Bench.e_pkg) start.
Proof.
  split; [reflexivity|]. split; [reflexivity|]. discriminate.
Qed.

(** C3, amended. A diagnostic that is not a [packages.Error] is printed
    and counted under every restriction path; a [packages.Error] whose
    [Pos] is empty is printed and counted exactly when the restriction
    path is empty. *)
Theorem report_admits_unpositioned
    (msg : string) (kind : Z) (r : string) (st : RunState) :
  report (OtherErr msg) r st = print_and_count (OtherErr msg) st
  /\ (report (PkgErr (mkPackagesError "" msg kind)) r st
      = print_and_count (PkgErr (mkPackagesError "" msg kind)) st
      <-> r = "").
Proof.
  split.
  - rewrite report_admits. unfold admits.
    rewrite orb_true_r. reflexivity.
  - rewrite report_admits. unfold admits.
    destruct r as [|c r]; simpl.
    + split; reflexivity.
    + split; [|discriminate].
      intros Heq. symmetry in Heq.
      exfalso. eapply print_and_count_changes, Heq.
Qed.

(** C4, as stated, fails: the restriction [a.go] is made absolute,
    [/w/a.go]; the diagnostic at [a.go:7:2] names the same file, and its
    path has the same absolute form, yet it is dropped, in [report] and
    in the whole of [checkPkgFiles]. *)
Lemma report_compares_raw_position :
  let r := (Bench.abs "a.go").1 in
  let file := hd "" (Split (Pos Bench.e_rel) ":") in
  r <> ""
  /\ has_position (PkgErr Bench.e_rel) = true
  /\ (Bench.abs file).1 = (Bench.abs r).1
  /\ report (PkgErr Bench.e_rel) r start = start
  /\ checkPkgFiles Bench.sys Bench.flags "." "a.go" start
     = Done (mkRunState 1 ["/w/a.go:3:1: undefined: x"]
               [(mkPackagesConfig "/w" LoadTypes false, ".")]).
Proof.
  repeat split. discriminate.
Qed.

(** C4, amended. Under a non-empty restriction path a [packages.Error]
    is printed and counted exactly when the text of its [Pos] before the
    first [":"] is, as it stands, the same string as the restriction
    path, and is dropped otherwise; so a position [file:rest] is
    admitted exactly when [file] itself equals the restriction. *)
Theorem report_matches_raw_file_part
    (e : PackagesError) (r : string) (st : RunState) :
  r <> "" ->
  (report (PkgErr e) r st = print_and_count (PkgErr e) st
   <-> hd "" (Split (Pos e) ":") = r)
  /\ (report (PkgErr e) r st = st <-> hd "" (Split (Pos e) ":") <> r)
  /\ (forall file rest,
         (forall pre post, file <> pre ++ String ":" post) ->
         Pos e = file ++ String ":" rest ->
         (report (PkgErr e) r st = print_and_count (PkgErr e) st
          <-> file = r)).
Proof.
  intros Hr.
  assert (Hcore :
            report (PkgErr e) r st
            = if String.eqb (hd "" (Split (Pos e) ":")) r
              then print_and_count (PkgErr e) st else st).
  { rewrite report_admits. unfold admits.
    destruct (String.eqb_spec r "") as [->|_]; [congruence|].
    reflexivity. }
  assert (Hfirst :
            report (PkgErr e) r st = print_and_count (PkgErr e) st
            <-> hd "" (Split (Pos e) ":") = r).
  { rewrite Hcore.
    destruct (String.eqb_spec (hd "" (Split (Pos e) ":")) r) as [Heq|Hne].
    - split; intros _; [exact Heq | reflexivity].
    - split; [|congruence].
      intros Heq. symmetry in Heq.
      exfalso. eapply print_and_count_changes, Heq. }
  split; [exact Hfirst|]. split.
  - rewrite Hcore.
    destruct (String.eqb_spec (hd "" (Split (Pos e) ":")) r) as [Heq|Hne].
    + split; [|congruence].
      intros Hsame. exfalso. eapply print_and_count_changes, Hsame.
    + split; intros _; [exact Hne | reflexivity].
  - intros file rest Hfree Hpos.
    rewrite Hfirst, Hpos, Split_head by exact Hfree. reflexivity.
Qed.

Lemma report_matches_raw_file_part_witness :
  (report (PkgErr Bench.e_a) "/w/a.go" start
   = print_and_count (PkgErr Bench.e_a) start
   <-> hd "" (Split (Pos Bench.e_a) ":") = "/w/a.go")
  /\ (report (PkgErr Bench.e_a) "/w/a.go" start = start
      <-> hd "" (Split (Pos Bench.e_a) ":") <> "/w/a.go")
  /\ (forall file rest,
         (forall pre post, file <> pre ++ String ":" post) ->
         Pos Bench.e_a = file ++ String ":" rest ->
         (report (PkgErr Bench.e_a) "/w/a.go" start
          = print_and_count (PkgErr Bench.e_a) start
          <-> file = "/w/a.go")).
Proof.
  apply (report_matches_raw_file_part Bench.e_a "/w/a.go" start).
  discriminate.
Defined.

(** What [checkPkgFiles] leaves behind when it returns. *)
Lemma checkPkgFiles_done sys flags pkgPath targetFile st st' :
  checkPkgFiles sys flags pkgPath targetFile st = Done st' ->
  (workingDir flags <> "" \/ (os_Getwd sys).2 = None)
  /\ (counted st -> counted st')
  /\ (loads st' = loads st
      \/ exists wd,
          loads st'
          = (loads st
             ++ [(mkPackagesConfig wd LoadTypes
                    (includeTests flags targetFile), pkgPath)])%list).
Proof.
  unfold checkPkgFiles. intros Hrun.
  assert (Hwd : workingDir flags <> "" \/ (os_Getwd sys).2 = None).
  { destruct (String.eqb_spec (workingDir flags) "") as [Hw|Hw];
      [|left; exact Hw].
    destruct (os_Getwd sys) as [wd [e|]]; [discriminate|].
    right. reflexivity. }
  split; [exact Hwd|].
  set (wd := if String.eqb (workingDir flags) "" then _ else _) in Hrun.
  destruct wd as [wd|msg]; [|discriminate].
  destruct (filepath_Abs sys targetFile) as [t' [e|]].
  { injection Hrun as <-. split.
    - apply counted_report.
    - left. apply loads_report. }
  destruct (packages_Load sys _ pkgPath) as [roots [e|]];
    injection Hrun as <-.
  - split.
    + intros Hc. apply counted_report. exact Hc.
    + right. exists wd. rewrite loads_report. reflexivity.
  - split.
    + intros Hc.
      apply (report_loop_inv counted t'
               (fun err s => counted_report err t' s)).
      exact Hc.
    + right. exists wd.
      apply (report_loop_inv
               (fun s => loads s = _) t'
               (fun err s H => eq_trans (loads_report err t' s) H)).
      reflexivity.
Qed.

Lemma checkPkgFiles_panic sys flags pkgPath targetFile st msg :
  checkPkgFiles sys flags pkgPath targetFile st = Panic msg ->
  workingDir flags = "" /\ (os_Getwd sys).2 <> None.
Proof.
  unfold checkPkgFiles.
  destruct (String.eqb_spec (workingDir flags) "") as [Hw|Hw].
  - destruct (os_Getwd sys) as [wd [e|]].
    + intros _. split; [exact Hw | discriminate].
    + destruct (filepath_Abs sys targetFile) as [t' [e|]];
        [discriminate|].
      destruct (packages_Load sys _ pkgPath) as [roots [e|]];
        discriminate.
  - destruct (filepath_Abs sys targetFile) as [t' [e|]]; [discriminate|].
    destruct (packages_Load sys _ pkgPath) as [roots [e|]]; discriminate.
Qed.

(** C8, as stated, fails: when the working directory cannot be
    determined, [checkPkgFiles] panics; no diagnostic was admitted and
    no usage error occurred, and the exit status is 2. *)
Lemma exit_nonzero_without_diagnostic :
  let run := main Bench.sys_lost Bench.flags ["a.go"] in
  (getPkgFiles Bench.sys_lost ["a.go"] (usePkgContext Bench.flags)).2 = None
  /\ stderr run.2 = []
  /\ errorCount run.2 = 0
  /\ exit_status run.1 = 2.
Proof. repeat split. Qed.

(** C8, amended. For a run that admits fewer than 2^63 diagnostics: the
    counter equals the number of admitted diagnostics; the exit status
    is 0 exactly when no diagnostic was admitted, [getPkgFiles] returned
    no error, and the working directory was known (given by [-w] or by
    [os.Getwd], so that [checkPkgFiles] did not panic); every other run
    ends with status 2. Each call of [report] either drops the
    diagnostic and changes nothing, or prints one line and adds one to
    the counter. *)
Theorem exit_status_zero_iff
    (sys : System) (flags : Flags) (args : list string) :
  let run := main sys flags args in
  let usage_error := (getPkgFiles sys args (usePkgContext flags)).2 in
  let wd_known := workingDir flags <> "" \/ (os_Getwd sys).2 = None in
  Z.of_nat (List.length (stderr run.2)) < 2 ^ 63 ->
  errorCount run.2 = Z.of_nat (List.length (stderr run.2))
  /\ (exit_status run.1 = 0
      <-> stderr run.2 = [] /\ usage_error = None /\ wd_known)
  /\ (exit_status run.1 = 0 \/ exit_status run.1 = 2)
  /\ (forall err r st,
         report err r st = st
         \/ (stderr (report err r st)
             = (stderr st ++ [Error_string err])%list
             /\ errorCount (report err r st)
                = int_wrap (errorCount st + 1))).
Proof.
  intros run usage_error wd_known Hbound.
  assert (Hreport : forall err r st,
             report err r st = st
             \/ (stderr (report err r st)
                 = (stderr st ++ [Error_string err])%list
                 /\ errorCount (report err r st)
                    = int_wrap (errorCount st + 1))).
  { intros err r st. rewrite report_admits.
    destruct (admits err r); [right; split; reflexivity | left; reflexivity]. }
  subst run usage_error wd_known. unfold main in *.
  destruct (getPkgFiles sys args (usePkgContext flags))
    as [[pkgPath targetFile] [e|]]; simpl in *.
  - (* usage error: one line, status 2 *)
    split; [reflexivity|]. split; [|split; [right; reflexivity|exact Hreport]].
    split; [discriminate|]. intros (_ & Hno & _). discriminate.
  - destruct (checkPkgFiles sys flags pkgPath targetFile start)
      as [st|msg] eqn:Hcheck.
    + apply checkPkgFiles_done in Hcheck as (Hwd & Hcount & _).
      specialize (Hcount counted_start). unfold counted in Hcount.
      assert (Hst : (if errorCount st >? 0 then (os_Exit 2, st)
                     else (Returned, st)).2 = st)
        by (destruct (errorCount st >? 0); reflexivity).
      rewrite Hst in *.
      rewrite int_wrap_small in Hcount by lia.
      split; [exact Hcount|].
      split; [|split; [|exact Hreport]].
      * destruct (Z.gtb_spec (errorCount st) 0) as [Hpos|Hzero]; simpl.
        -- split; [discriminate|]. intros (Hnil & _).
           rewrite Hnil in Hcount. simpl in Hcount. lia.
        -- split; [|reflexivity]. intros _.
           split; [|split; [reflexivity | exact Hwd]].
           destruct (stderr st); [reflexivity|]. simpl in Hcount. lia.
      * destruct (errorCount st >? 0); [right | left]; reflexivity.
    + apply checkPkgFiles_panic in Hcheck as (Hw & Hg). simpl in *.
      split; [reflexivity|].
      split; [|split; [right; reflexivity | exact Hreport]].
      split; [discriminate|].
      intros (_ & _ & [Hwd|Hwd]); congruence.
Qed.

Lemma exit_status_zero_iff_witness :
  let run := main Bench.sys_clean Bench.flags ["a.go"] in
  exit_status run.1 = 0
  /\ errorCount run.2 = Z.of_nat (List.length (stderr run.2))
  /\ (exit_status run.1 = 0
      <-> stderr run.2 = []
          /\ (getPkgFiles Bench.sys_clean ["a.go"]
                (usePkgContext Bench.flags)).2 = None
          /\ (workingDir Bench.flags <> ""
              \/ (os_Getwd Bench.sys_clean).2 = None)).
Proof.
  split; [reflexivity|].
  pose proof (exit_status_zero_iff Bench.sys_clean Bench.flags ["a.go"])
    as H.
  cbv zeta in H.
  destruct (H eq_refl) as (Hcount & Hexit & _).
  split; [exact Hcount | exact Hexit].
Defined.

(** C9. Whenever [checkPkgFiles] gets as far as loading (the working
    directory is known and [filepath.Abs] has succeeded), what it
    returns is what [report] makes of one call of [packages.Load], for
    the given package path, with a configuration that asks for test
    files exactly when auto-inclusion ([-a]) is on, the target file is
    set (non-empty), and the target file's name ends in [_test.go]. *)
Theorem tests_included_iff
    (sys : System) (flags : Flags) (pkgPath targetFile : string)
    (st : RunState) (t : string) :
  workingDir flags <> "" \/ (os_Getwd sys).2 = None ->
  filepath_Abs sys targetFile = (t, None) ->
  exists tests : bool,
    (tests = true
     <-> autoFiles flags = true
         /\ targetFile <> ""
         /\ exists stem, targetFile = stem ++ "_test.go")
    /\ let cfg := mkPackagesConfig (chosen_wd sys flags) LoadTypes tests in
       let st1 := mkRunState (errorCount st) (stderr st)
                             (loads st ++ [(cfg, pkgPath)])%list in
       checkPkgFiles sys flags pkgPath targetFile st
       = match packages_Load sys cfg pkgPath with
         | (_, Some e) => Done (report e t st1)
         | (roots, None) =>
             Done (fold_left
                     (fun st root =>
                        fold_left
                          (fun st err => report (PkgErr err) t st)
                          (Errors root) st)
                     roots st1)
         end.
Proof.
  intros Hwd Habs.
  exists (includeTests flags targetFile). split.
  - unfold includeTests.
    rewrite !andb_true_iff, negb_true_iff, HasSuffix_spec.
    destruct (String.eqb_spec targetFile "") as [Heq|Hne].
    + split; [intros [[_ Hf] _]; discriminate|].
      intros (_ & Hset & _). contradiction.
    + split; [intros [[Ha _] Hs] | intros (Ha & _ & Hs)]; auto.
  - cbv zeta. unfold checkPkgFiles, chosen_wd.
    destruct (String.eqb_spec (workingDir flags) "") as [Hw|Hw].
    + destruct Hwd as [Hwd|Hwd]; [contradiction|].
      destruct (os_Getwd sys) as [wd [e|]]; [discriminate|]. simpl.
      rewrite Habs.
      destruct (packages_Load sys _ pkgPath) as [roots [e|]]; reflexivity.
    + rewrite Habs.
      destruct (packages_Load sys _ pkgPath) as [roots [e|]]; reflexivity.
Qed.

Lemma tests_included_iff_witness :
  checkPkgFiles Bench.sys_tests Bench.flags "." "a_test.go" start
  = Done (mkRunState 1 ["/w/a_test.go:2:1: undefined: helper"]
            [(mkPackagesConfig "/w" LoadTypes true, ".")])
  /\ checkPkgFiles Bench.sys_tests Bench.flags "." "a.go" start
     = Done (mkRunState 0 []
               [(mkPackagesConfig "/w" LoadTypes false, ".")])
  /\ exists tests : bool,
      (tests = true
       <-> autoFiles Bench.flags = true
           /\ "a_test.go" <> ""
           /\ exists stem, "a_test.go" = stem ++ "_test.go")
      /\ let cfg :=
           mkPackagesConfig (chosen_wd Bench.sys_tests Bench.flags)
                            LoadTypes tests in
         let st1 := mkRunState (errorCount start) (stderr start)
                               (loads start ++ [(cfg, ".")])%list in
         checkPkgFiles Bench.sys_tests Bench.flags "." "a_test.go" start
         = match packages_Load Bench.sys_tests cfg "." with
           | (_, Some e) => Done (report e "/w/a_test.go" st1)
           | (roots, None) =>
               Done (fold_left
                       (fun st root =>
                          fold_left
                            (fun st err =>
                               report (PkgErr err) "/w/a_test.go" st)
                            (Errors root) st)
                       roots st1)
           end.
Proof.
  split; [reflexivity|]. split; [reflexivity|].
  apply (tests_included_iff Bench.sys_tests Bench.flags "." "a_test.go"
           start "/w/a_test.go").
  - right. reflexivity.
  - reflexivity.
Defined.

End DriverClaims.

(** ** More about the resolver *)

Module ResolverMore.
Import Resolver ResolverFacts.

(** Any relation between resolver states that is a preorder, ignores
    the cache, and holds across each batch of collaborator calls that
    [ImportFrom] and [Import] record, holds across every call and every
    run of requests, however deeply the type engine nests. *)
Section Across.

Variable tc : Toolchain.
Variable R : Importer -> Importer -> Prop.
Hypothesis R_refl : forall i, R i i.
Hypothesis R_trans : forall a b c, R a b -> R b c -> R a c.
Hypothesis R_store : forall p v i, R i (store p v i).
Hypothesis R_import : forall p i, R i (note (EvFastImport p) i).
Hypothesis R_fast :
  forall p d m i, R i (note (EvFastImportFrom p d m) i).
Hypothesis R_discover :
  forall p d m i,
    R i (note (EvDiscover p d) (note (EvFastImportFrom p d m) i)).
Hypothesis R_parse :
  forall p d m dir fs i,
    R i (note (EvParse dir fs)
           (note (EvDiscover p d) (note (EvFastImportFrom p d m) i))).
Hypothesis R_check :
  forall p d m dir fs files i,
    R i (note (EvCheck p files)
           (note (EvParse dir fs)
              (note (EvDiscover p d)
                 (note (EvFastImportFrom p d m) i)))).

Lemma Import_across i path pkg err i' :
  Import i path = (pkg, err, i') -> R i i'.
Proof.
  unfold Import. destruct (fast_Import (mainImporter i) path) as [p e].
  intros [= _ _ <-]. apply R_import.
Qed.

Lemma runEngine_across importFrom :
  (forall i p d m pkg err i',
      importFrom i p d m = Some (pkg, err, i') -> R i i') ->
  forall e i pkg err i',
    runEngine importFrom e i = Some (pkg, err, i') -> R i i'.
Proof.
  intros Hcb e. induction e as [pkg0 err0 | path k IH | path d m k IH];
    intros i pkg err i' Hrun; simpl in Hrun.
  - injection Hrun as _ _ <-. apply R_refl.
  - destruct (Import i path) as [[p1 e1] i1] eqn:Himp.
    eapply R_trans; [eapply Import_across, Himp | eapply IH, Hrun].
  - destruct (importFrom i path d m) as [[[p1 e1] i1]|] eqn:Hcall;
      [|discriminate].
    eapply R_trans; [eapply Hcb, Hcall | eapply IH, Hrun].
Qed.

Lemma ImportFrom_across fuel :
  forall i path srcDir mode pkg err i',
    ImportFrom tc fuel i path srcDir mode = Some (pkg, err, i') ->
    R i i'.
Proof.
  induction fuel as [|fuel IH]; intros i path srcDir mode pkg err i' Hcall;
    simpl in Hcall;
    destruct (packages i !! path) as [hit|];
    try (injection Hcall as _ _ <-; apply R_refl);
    destruct (fast_ImportFrom _ _ _ _) as [p0 [e0|]];
    try (injection Hcall as _ _ <-;
         eapply R_trans; [apply R_fast | apply R_store]);
    destruct (build_Import _ _ _ _) as [bp [e1|]];
    try (injection Hcall as _ _ <-; apply R_discover);
    destruct (parseFiles _ _ _) as [fs [e2|]];
    try (injection Hcall as _ _ <-; apply R_parse);
    try discriminate.
  match type of Hcall with
  | context [runEngine ?f ?e ?j] =>
      destruct (runEngine f e j) as [[[p3 e3] i3]|] eqn:Hrun;
      [|discriminate]
  end.
  injection Hcall as _ _ <-.
  apply runEngine_across in Hrun; [|exact IH].
  eapply R_trans; [|apply R_store].
  eapply R_trans; [apply R_check | exact Hrun].
Qed.

Lemma serveAll_across fuel rs :
  forall i i', serveAll tc fuel rs i = Some i' -> R i i'.
Proof.
  induction rs as [|r rs IH]; intros i i' Hrun; simpl in Hrun.
  - injection Hrun as <-. apply R_refl.
  - destruct (serve tc fuel r i) as [[[p e] i1]|] eqn:Hr; [|discriminate].
    eapply R_trans; [|eapply IH, Hrun].
    destruct r as [path | path d m]; simpl in Hr.
    + injection Hr as Hr. eapply Import_across, Hr.
    + eapply ImportFrom_across, Hr.
Qed.

End Across.

(** *** Counting calls *)

Lemma tally_app kind (a b : list Event) :
  tally kind (a ++ b) = (tally kind a + tally kind b)%nat.
Proof. unfold tally. rewrite List.filter_app, List.length_app. reflexivity. Qed.

Lemma grows_staged_by (evs : list Event) i i' :
  calls i' = (calls i ++ evs)%list -> staged evs -> grows_staged i i'.
Proof. intros H1 H2. exists evs. split; assumption. Qed.

Lemma grows_staged_trans a b c :
  grows_staged a b -> grows_staged b c -> grows_staged a c.
Proof.
  intros (e1 & H1 & S1) (e2 & H2 & S2).
  exists (e1 ++ e2)%list. split.
  - rewrite H2, H1, <- List.app_assoc. reflexivity.
  - unfold staged in *. rewrite !tally_app. lia.
Qed.

End ResolverMore.

Section ResolverExtras.
Import Resolver ResolverFacts ResolverMore.

Variable tc : Toolchain.

(** What an error return of [ImportFrom] tells about the call. *)
Lemma ImportFrom_error_inv fuel i path srcDir mode pkg e i' :
  ImportFrom tc fuel i path srcDir mode = Some (pkg, Some e, i') ->
  let fullDir := Join tc (cwd i) srcDir in
  let tried := note (EvFastImportFrom path fullDir mode) i in
  let looked := note (EvDiscover path fullDir) tried in
  packages i !! path = None
  /\ pkg = nil_pkg
  /\ (exists p0 e0,
        fast_ImportFrom (mainImporter i) path fullDir mode = (p0, Some e0))
  /\ ((exists bp,
          build_Import tc path fullDir 0 = (bp, Some e) /\ i' = looked)
      \/ (exists bp fs,
             build_Import tc path fullDir 0 = (bp, None)
             /\ parseFiles tc (Dir bp) (GoFiles bp ++ CgoFiles bp)%list
                = (fs, Some e)
             /\ i' = note (EvParse (Dir bp)
                                   (GoFiles bp ++ CgoFiles bp)%list)
                          looked)).
Proof.
  intros Hcall. cbv zeta.
  destruct fuel as [|fuel]; simpl in Hcall;
    destruct (packages i !! path) as [hit|]; try discriminate;
    (split; [reflexivity|]);
    destruct (fast_ImportFrom _ _ _ _) as [p0 [e0|]]; try discriminate;
    destruct (build_Import _ _ _ _) as [bp [e1|]];
    try (injection Hcall as <- <- <-;
         split; [reflexivity|]; split; [eauto|]; left; eauto);
    destruct (parseFiles _ _ _) as [fs [e2|]] eqn:Hparse;
    try (injection Hcall as <- <- <-;
         split; [reflexivity|]; split; [eauto|]; right; eauto);
    try discriminate.
  match type of Hcall with
  | context [runEngine ?f ?e ?j] =>
      destruct (runEngine f e j) as [[[p3 e3] i3]|]; discriminate
  end.
Qed.

(** The same failure, run forward from any state with the same setup
    in which [path] is not cached. *)
Lemma ImportFrom_discovery_fails fuel i path srcDir mode p0 e0 bp e :
  let fullDir := Join tc (cwd i) srcDir in
  packages i !! path = None ->
  fast_ImportFrom (mainImporter i) path fullDir mode = (p0, Some e0) ->
  build_Import tc path fullDir 0 = (bp, Some e) ->
  ImportFrom tc fuel i path srcDir mode
  = Some (nil_pkg, Some e,
          note (EvDiscover path fullDir)
               (note (EvFastImportFrom path fullDir mode) i)).
Proof.
  intros fullDir Hmiss Hfast Hfind. subst fullDir.
  destruct fuel; simpl; rewrite Hmiss, Hfast, Hfind; reflexivity.
Qed.

Lemma ImportFrom_parse_fails fuel i path srcDir mode p0 e0 bp fs e :
  let fullDir := Join tc (cwd i) srcDir in
  packages i !! path = None ->
  fast_ImportFrom (mainImporter i) path fullDir mode = (p0, Some e0) ->
  build_Import tc path fullDir 0 = (bp, None) ->
  parseFiles tc (Dir bp) (GoFiles bp ++ CgoFiles bp)%list = (fs, Some e) ->
  ImportFrom tc fuel i path srcDir mode
  = Some (nil_pkg, Some e,
          note (EvParse (Dir bp) (GoFiles bp ++ CgoFiles bp)%list)
               (note (EvDiscover path fullDir)
                     (note (EvFastImportFrom path fullDir mode) i))).
Proof.
  intros fullDir Hmiss Hfast Hfind Hparse. subst fullDir.
  destruct fuel; simpl; rewrite Hmiss, Hfast, Hfind, Hparse; reflexivity.
Qed.

(** X1. Whenever [ImportFrom] returns an error, the package it returns
    is nil, the cache is exactly as it was before the call, [path] was
    not cached, the fast importer had failed, and the error is the one
    of source discovery or, after a successful discovery, the one of
    parsing. *)
Theorem ImportFrom_error_leaves_cache
    (fuel : nat) (i : Importer) (path srcDir : string) (mode : ImportMode)
    (pkg : PackagePtr) (e : errval) (i' : Importer) :
  ImportFrom tc fuel i path srcDir mode = Some (pkg, Some e, i') ->
  let fullDir := Join tc (cwd i) srcDir in
  let found := build_Import tc path fullDir 0 in
  pkg = nil_pkg
  /\ packages i' = packages i
  /\ packages i !! path = None
  /\ (fast_ImportFrom (mainImporter i) path fullDir mode).2 <> None
  /\ (found.2 = Some e
      \/ (found.2 = None
          /\ (parseFiles tc (Dir found.1)
                (GoFiles found.1 ++ CgoFiles found.1)%list).2 = Some e)).
Proof.
  intros Hcall. cbv zeta.
  apply ImportFrom_error_inv in Hcall
    as (Hmiss & -> & (p0 & e0 & Hfast) & Hwhy).
  split; [reflexivity|].
  destruct Hwhy as [(bp & Hfind & ->) | (bp & fs & Hfind & Hparse & ->)];
    (split; [reflexivity|]); (split; [exact Hmiss|]);
    rewrite Hfast, Hfind; simpl; (split; [discriminate|]).
  - left. reflexivity.
  - right. rewrite Hparse. split; reflexivity.
Qed.

(** X2. Whenever [ImportFrom] returns a nil error, the package it
    returns, nil or not, is what the cache then holds under [path]; and
    when [path] was cached already, the call returns the cached package
    and changes nothing. *)
Theorem ImportFrom_success_stored
    (fuel : nat) (i : Importer) (path srcDir : string) (mode : ImportMode)
    (pkg : PackagePtr) (i' : Importer) :
  ImportFrom tc fuel i path srcDir mode = Some (pkg, None, i') ->
  packages i' !! path = Some pkg
  /\ (forall old, packages i !! path = Some old -> pkg = old /\ i' = i).
Proof.
  intros Hcall. split.
  - eapply ImportFrom_stored, Hcall.
  - intros old Hold.
    rewrite (ImportFrom_hit tc fuel i path srcDir mode old Hold) in Hcall.
    injection Hcall as <- <-. split; reflexivity.
Qed.

(** X3. When [path] is not cached and the fast importer succeeds,
    [ImportFrom] returns its package with a nil error for every fuel,
    adds exactly the binding of [path] to the cache, and calls nothing
    but the fast importer: no discovery, no parsing, no type check. *)
Theorem ImportFrom_fast_success
    (fuel : nat) (i : Importer) (path srcDir : string) (mode : ImportMode)
    (pkg : PackagePtr) :
  packages i !! path = None ->
  fast_ImportFrom (mainImporter i) path (Join tc (cwd i) srcDir) mode
  = (pkg, None) ->
  exists i',
    ImportFrom tc fuel i path srcDir mode = Some (pkg, None, i')
    /\ packages i' = <[path := pkg]> (packages i)
    /\ calls i'
       = (calls i
          ++ [EvFastImportFrom path (Join tc (cwd i) srcDir) mode])%list.
Proof.
  intros Hmiss Hfast.
  eexists. split.
  - destruct fuel; simpl; rewrite Hmiss, Hfast; reflexivity.
  - split; reflexivity.
Qed.

(** X4. A failed resolution is not remembered: when [ImportFrom]
    returned an error, the same call made again right after it, with
    any fuel, returns the same error and repeats the same collaborator
    calls, the fast importer first. *)
Theorem ImportFrom_failure_retried
    (fuel : nat) (i : Importer) (path srcDir : string) (mode : ImportMode)
    (pkg : PackagePtr) (e : errval) (i' : Importer) :
  ImportFrom tc fuel i path srcDir mode = Some (pkg, Some e, i') ->
  forall fuel' : nat,
  exists i'' evs,
    ImportFrom tc fuel' i' path srcDir mode = Some (pkg, Some e, i'')
    /\ calls i' = (calls i ++ evs)%list
    /\ calls i'' = (calls i' ++ evs)%list
    /\ hd_error evs
       = Some (EvFastImportFrom path (Join tc (cwd i) srcDir) mode).
Proof.
  intros Hcall fuel'.
  apply ImportFrom_error_inv in Hcall
    as (Hmiss & -> & (p0 & e0 & Hfast) & Hwhy).
  destruct Hwhy as [(bp & Hfind & ->) | (bp & fs & Hfind & Hparse & ->)].
  - eexists. eexists. split.
    + apply (ImportFrom_discovery_fails fuel' _ path srcDir mode p0 e0 bp e);
        simpl; assumption.
    + simpl. rewrite <- !List.app_assoc. simpl.
      split; [reflexivity|]. split; reflexivity.
  - eexists. eexists. split.
    + apply (ImportFrom_parse_fails fuel' _ path srcDir mode p0 e0 bp fs e);
        simpl; assumption.
    + simpl. rewrite <- !List.app_assoc. simpl.
      split; [reflexivity|]. split; reflexivity.
Qed.

(** X5. On the slow path the outcome of the type check decides only the
    package: when [path] is not cached, the fast importer fails, and
    discovery and parsing succeed, then whatever package and whatever
    error [i.config.Check] comes back with, [ImportFrom] returns that
    package with a nil error and stores it under [path]. *)
Theorem ImportFrom_check_error_dropped
    (fuel : nat) (i : Importer) (path srcDir : string) (mode : ImportMode)
    (p0 : PackagePtr) (e0 : errval) (bp : BuildPackage)
    (files : list AstFile) (pkg : PackagePtr) (err : error)
    (i4 : Importer) :
  let fullDir := Join tc (cwd i) srcDir in
  packages i !! path = None ->
  fast_ImportFrom (mainImporter i) path fullDir mode = (p0, Some e0) ->
  build_Import tc path fullDir 0 = (bp, None) ->
  parseFiles tc (Dir bp) (GoFiles bp ++ CgoFiles bp)%list = (files, None) ->
  runEngine (ImportFrom tc fuel) (Check (config i) path files)
            (at_check tc i path srcDir mode bp files)
  = Some (pkg, err, i4) ->
  ImportFrom tc (S fuel) i path srcDir mode
  = Some (pkg, None, store path pkg i4)
  /\ packages (store path pkg i4) !! path = Some pkg.
Proof.
  intros fullDir Hmiss Hfast Hfind Hparse Hrun. subst fullDir.
  split; [|apply lookup_insert_eq].
  unfold at_check in Hrun.
  simpl. rewrite Hmiss, Hfast, Hfind, Hparse. simpl.
  rewrite Hrun. reflexivity.
Qed.

(** X6. No request to the resolver, however the type engine nests
    further requests inside it, ever assigns the fast importer, the
    base directory or the configuration of the resolver. *)
Theorem resolver_setup_fixed
    (fuel : nat) (rs : list Request) (i i' : Importer) :
  serveAll tc fuel rs i = Some i' ->
  mainImporter i' = mainImporter i
  /\ cwd i' = cwd i
  /\ config i' = config i.
Proof.
  apply (serveAll_across tc same_setup); unfold same_setup.
  - intros j. repeat split.
  - intros a b c (H1 & H2 & H3) (H4 & H5 & H6).
    repeat split; congruence.
  - intros p v j. repeat split.
  - intros p j. repeat split.
  - intros p d m j. repeat split.
  - intros p d m j. repeat split.
  - intros p d m dir fs j. repeat split.
  - intros p d m dir fs files j. repeat split.
Qed.

(** X7. Across any run of requests the record of collaborator calls is
    only extended, and among the calls added there are never more type
    checks than parses, more parses than discoveries, or more
    discoveries than calls of the fast importer's [ImportFrom]: each
    stage of the slow path is reached only through the one before. *)
Theorem calls_staged
    (fuel : nat) (rs : list Request) (i i' : Importer) :
  serveAll tc fuel rs i = Some i' ->
  exists evs,
    calls i' = (calls i ++ evs)%list
    /\ (tally is_check evs <= tally is_parse evs)%nat
    /\ (tally is_parse evs <= tally is_discover evs)%nat
    /\ (tally is_discover evs <= tally is_fast evs)%nat.
Proof.
  apply (serveAll_across tc grows_staged).
  - intros j. apply (grows_staged_by []).
    + symmetry. apply List.app_nil_r.
    + repeat split; apply Nat.le_refl.
  - apply grows_staged_trans.
  - intros p v j. apply (grows_staged_by []).
    + symmetry. apply List.app_nil_r.
    + repeat split; apply Nat.le_refl.
  - intros p j. apply (grows_staged_by [EvFastImport p]).
    + reflexivity.
    + repeat split; apply Nat.le_refl.
  - intros p d m j. apply (grows_staged_by [EvFastImportFrom p d m]).
    + reflexivity.
    + repeat split; compute; lia.
  - intros p d m j.
    apply (grows_staged_by [EvFastImportFrom p d m; EvDiscover p d]).
    + simpl. rewrite <- List.app_assoc. reflexivity.
    + repeat split; compute; lia.
  - intros p d m dir fs j.
    apply (grows_staged_by
             [EvFastImportFrom p d m; EvDiscover p d; EvParse dir fs]).
    + simpl. rewrite <- !List.app_assoc. reflexivity.
    + repeat split; compute; lia.
  - intros p d m dir fs files j.
    apply (grows_staged_by
             [EvFastImportFrom p d m; EvDiscover p d; EvParse dir fs;
              EvCheck p files]).
    + simpl. rewrite <- !List.app_assoc. reflexivity.
    + repeat split; compute; lia.
Qed.

End ResolverExtras.

Section ResolverExtrasWitnesses.
Import Resolver ResolverFacts ResolverMore.

Lemma ImportFrom_error_leaves_cache_witness :
  exists i',
    ImportFrom Sample.tc 5 Sample.fresh "example.com/broken" "" 0
    = Some (nil_pkg,
            Some (OtherErr "broken.go:1:1: expected 'package'"), i')
    /\ nil_pkg = nil_pkg
    /\ packages i' = packages Sample.fresh
    /\ packages Sample.fresh !! "example.com/broken" = None
    /\ (fast_ImportFrom (mainImporter Sample.fresh) "example.com/broken"
          (Join Sample.tc (cwd Sample.fresh) "") 0).2 <> None
    /\ ((build_Import Sample.tc "example.com/broken"
           (Join Sample.tc (cwd Sample.fresh) "") 0).2
        = Some (OtherErr "broken.go:1:1: expected 'package'")
        \/ ((build_Import Sample.tc "example.com/broken"
               (Join Sample.tc (cwd Sample.fresh) "") 0).2 = None
            /\ (parseFiles Sample.tc "/src/broken" ["broken.go"]).2
               = Some (OtherErr "broken.go:1:1: expected 'package'"))).
Proof.
  eexists. split; [reflexivity|].
  apply (ImportFrom_error_leaves_cache Sample.tc 5 Sample.fresh
           "example.com/broken" "" 0 nil_pkg
           (OtherErr "broken.go:1:1: expected 'package'")).
  reflexivity.
Defined.

Lemma ImportFrom_success_stored_witness :
  exists i',
    ImportFrom Sample.tc 1 Sample.fresh "example.com/a" "" 0
    = Some (pkg_at 2, None, i')
    /\ packages i' !! "example.com/a" = Some (pkg_at 2)
    /\ (forall old,
          packages Sample.fresh !! "example.com/a" = Some old ->
          pkg_at 2 = old /\ i' = Sample.fresh).
Proof.
  eexists. split; [reflexivity|].
  apply (ImportFrom_success_stored Sample.tc 1 Sample.fresh
           "example.com/a" "" 0 (pkg_at 2)).
  reflexivity.
Defined.

Lemma ImportFrom_fast_success_witness :
  exists i',
    ImportFrom Sample.tc 0 Sample.fresh "fmt" "src" 0
    = Some (pkg_at 1, None, i')
    /\ packages i' = <["fmt" := pkg_at 1]> (packages Sample.fresh)
    /\ calls i'
       = (calls Sample.fresh ++ [EvFastImportFrom "fmt" "/work/src" 0])%list.
Proof.
  apply (ImportFrom_fast_success Sample.tc 0 Sample.fresh "fmt" "src" 0
           (pkg_at 1)); reflexivity.
Defined.

Lemma ImportFrom_failure_retried_witness :
  exists i',
    ImportFrom Sample.tc 1 Sample.fresh "example.com/none" "" 0
    = Some (nil_pkg, Some (OtherErr "cannot find package"), i')
    /\ exists i'' evs,
        ImportFrom Sample.tc 3 i' "example.com/none" "" 0
        = Some (nil_pkg, Some (OtherErr "cannot find package"), i'')
        /\ calls i' = (calls Sample.fresh ++ evs)%list
        /\ calls i'' = (calls i' ++ evs)%list
        /\ hd_error evs
           = Some (EvFastImportFrom "example.com/none" "/work" 0).
Proof.
  eexists. split; [reflexivity|].
  apply (ImportFrom_failure_retried Sample.tc 1 Sample.fresh
           "example.com/none" "" 0 nil_pkg
           (OtherErr "cannot find package")).
  reflexivity.
Defined.

Lemma ImportFrom_check_error_dropped_witness :
  let bp := mkBuildPackage "/src/bad" ["bad.go"] [] in
  let i4 := at_check Sample.tc Sample.fresh "example.com/bad" "" 0 bp
              ["bad.go"] in
  Check Sample.cfg "example.com/bad" ["bad.go"]
  = Return (pkg_at 3) (Some (OtherErr "undefined: x"))
  /\ ImportFrom Sample.tc 1 Sample.fresh "example.com/bad" "" 0
     = Some (pkg_at 3, None, store "example.com/bad" (pkg_at 3) i4)
  /\ packages (store "example.com/bad" (pkg_at 3) i4) !! "example.com/bad"
     = Some (pkg_at 3).
Proof.
  cbv zeta. split; [reflexivity|].
  apply (ImportFrom_check_error_dropped Sample.tc 0 Sample.fresh
           "example.com/bad" "" 0 nil_pkg (OtherErr "can't find import")
           (mkBuildPackage "/src/bad" ["bad.go"] []) ["bad.go"]
           (pkg_at 3) (Some (OtherErr "undefined: x")));
    reflexivity.
Defined.

Lemma resolver_setup_fixed_witness :
  exists i',
    serveAll Sample.tc 1
      [ReqImportFrom "example.com/a" "" 0; ReqImport "fmt";
       ReqImportFrom "example.com/bad" "d" 2] Sample.fresh = Some i'
    /\ mainImporter i' = mainImporter Sample.fresh
    /\ cwd i' = cwd Sample.fresh
    /\ config i' = config Sample.fresh.
Proof.
  eexists. split; [reflexivity|].
  apply (resolver_setup_fixed Sample.tc 1
           [ReqImportFrom "example.com/a" "" 0; ReqImport "fmt";
            ReqImportFrom "example.com/bad" "d" 2]).
  reflexivity.
Defined.

Lemma calls_staged_witness :
  exists i',
    serveAll Knot.tc 2
      [ReqImportFrom "p" "" 0; ReqImport "q"; ReqImportFrom "q" "" 0]
      Knot.fresh = Some i'
    /\ exists evs,
        calls i' = (calls Knot.fresh ++ evs)%list
        /\ (tally is_check evs <= tally is_parse evs)%nat
        /\ (tally is_parse evs <= tally is_discover evs)%nat
        /\ (tally is_discover evs <= tally is_fast evs)%nat.
Proof.
  eexists. split; [reflexivity|].
  apply (calls_staged Knot.tc 2
           [ReqImportFrom "p" "" 0; ReqImport "q"; ReqImportFrom "q" "" 0]).
  reflexivity.
Defined.

End ResolverExtrasWitnesses.

(** ** More about the driver *)

Module DriverMore.
Import Driver DriverFacts.

(** The first piece of a split never contains the separator. *)
Lemma Split_head_free (sep : ascii) (s : string) :
  forall a b, hd "" (Split s sep) <> a ++ String sep b.
Proof.
  induction s as [|c s IH]; intros a b; simpl.
  - destruct a; [rewrite append_nil_l | rewrite append_cons]; discriminate.
  - destruct (Ascii.eqb c sep) eqn:Hc; simpl.
    + destruct a; [rewrite append_nil_l | rewrite append_cons];
        discriminate.
    + destruct (Split s sep) as [|piece pieces] eqn:Hs.
      * exfalso. eapply Split_nonempty, Hs.
      * simpl in *. destruct a as [|c' a].
        -- rewrite append_nil_l. intros [= -> _].
           rewrite Ascii.eqb_refl in Hc. discriminate.
        -- rewrite append_cons. intros [= _ Hpiece].
           eapply IH, Hpiece.
Qed.

Lemma substring_prefix (pre s : string) :
  substring 0 (String.length pre) (pre ++ s) = pre.
Proof.
  induction pre as [|c pre IH].
  - rewrite append_nil_l. destruct s; reflexivity.
  - rewrite append_cons. simpl. f_equal. exact IH.
Qed.

(** A string begins with what it was built from. *)
Lemma HasPrefix_append (pre s : string) : HasPrefix (pre ++ s) pre = true.
Proof.
  unfold HasPrefix. rewrite string_length_app, substring_prefix.
  rewrite String.eqb_refl, andb_true_r. apply Nat.leb_le. lia.
Qed.

Lemma int_wrap_add (a b : Z) : int_wrap (int_wrap a + b) = int_wrap (a + b).
Proof.
  unfold int_wrap.
  replace ((a + 2 ^ 63) mod 2 ^ 64 - 2 ^ 63 + b + 2 ^ 63)
    with ((a + 2 ^ 63) mod 2 ^ 64 + b) by lia.
  rewrite Z.add_mod_idemp_l by lia.
  f_equal. f_equal. lia.
Qed.

Lemma int_wrap_range (z : Z) : - 2 ^ 63 <= z < 2 ^ 63 -> int_wrap z = z.
Proof.
  intros Hz. unfold int_wrap.
  rewrite Z.mod_small by lia. lia.
Qed.

Lemma int_wrap_bounds (z : Z) : - 2 ^ 63 <= int_wrap z < 2 ^ 63.
Proof.
  unfold int_wrap.
  pose proof (Z.mod_pos_bound (z + 2 ^ 63) (2 ^ 64)) as H. lia.
Qed.

Lemma int_wrap_idem (z : Z) : int_wrap (int_wrap z) = int_wrap z.
Proof. apply int_wrap_range, int_wrap_bounds. Qed.

(** The two nested loops of [checkPkgFiles] are one pass over all the
    errors. *)
Lemma report_loop_flat (r : string) (roots : list RootPackage) :
  forall st,
    fold_left
      (fun st root =>
         fold_left (fun st err => report (PkgErr err) r st)
                   (Errors root) st)
      roots st
    = fold_left (fun st err => report (PkgErr err) r st)
                (all_errors roots) st.
Proof.
  unfold all_errors.
  induction roots as [|root roots IH]; intros st; simpl; [reflexivity|].
  rewrite List.fold_left_app. apply IH.
Qed.

(** One pass of [report] prints the admitted errors, in order, and
    counts them. *)
Lemma report_pass (r : string) (es : list PackagesError) :
  forall st,
    let shown := List.filter (fun e => admits (PkgErr e) r) es in
    let st' := fold_left (fun st err => report (PkgErr err) r st) es st in
    stderr st'
    = (stderr st ++ List.map (fun e => Error_string (PkgErr e)) shown)%list
    /\ int_wrap (errorCount st')
       = int_wrap (errorCount st + Z.of_nat (List.length shown))
    /\ (shown = [] -> errorCount st' = errorCount st)
    /\ (shown <> [] -> int_wrap (errorCount st') = errorCount st')
    /\ loads st' = loads st.
Proof.
  induction es as [|e es IH]; intros st; simpl.
  - rewrite List.app_nil_r, Z.add_0_r. repeat split; congruence.
  - specialize (IH (report (PkgErr e) r st)). cbv zeta in IH.
    destruct IH as (Herr & Hcount & Hnone & Hsome & Hloads).
    rewrite report_admits in *.
    destruct (admits (PkgErr e) r) eqn:Hadm; simpl in *.
    + rewrite Herr, <- List.app_assoc. split; [reflexivity|].
      split.
      { rewrite Hcount, int_wrap_add. f_equal. lia. }
      split; [discriminate|]. split; [|exact Hloads].
      intros _.
      destruct (List.filter (fun e0 => admits (PkgErr e0) r) es)
        as [|x xs] eqn:Hf.
      * rewrite (Hnone eq_refl). apply int_wrap_idem.
      * apply Hsome. discriminate.
    + repeat split; assumption.
Qed.

(** The same pass, from a counter within the range of [int]. *)
Lemma report_pass_total (r : string) (es : list PackagesError)
    (st : RunState) :
  - 2 ^ 63 <= errorCount st < 2 ^ 63 ->
  let shown := List.filter (fun e => admits (PkgErr e) r) es in
  let st' := fold_left (fun st err => report (PkgErr err) r st) es st in
  stderr st'
  = (stderr st ++ List.map (fun e => Error_string (PkgErr e)) shown)%list
  /\ errorCount st'
     = int_wrap (errorCount st + Z.of_nat (List.length shown)).
Proof.
  intros Hrange shown st'.
  destruct (report_pass r es st) as (Herr & Hcount & Hnone & Hsome & _).
  fold shown st' in Herr, Hcount, Hnone, Hsome.
  split; [exact Herr|].
  destruct shown as [|x xs] eqn:Hshown.
  - rewrite (Hnone eq_refl). simpl. rewrite Z.add_0_r.
    symmetry. apply int_wrap_range, Hrange.
  - rewrite <- Hsome by discriminate. exact Hcount.
Qed.

End DriverMore.

Section DriverExtras.
Import Driver DriverFacts DriverMore.

Variable sys : System.
Variable flags : Flags.

(** Once the working directory is known and the target path has been
    made absolute, [checkPkgFiles] loads the package and reports. *)
Lemma checkPkgFiles_loads pkgPath targetFile st t :
  workingDir flags <> "" \/ (os_Getwd sys).2 = None ->
  filepath_Abs sys targetFile = (t, None) ->
  checkPkgFiles sys flags pkgPath targetFile st
  = let cfg := load_config sys flags targetFile in
    let st1 := mkRunState (errorCount st) (stderr st)
                          (loads st ++ [(cfg, pkgPath)])%list in
    match (packages_Load sys cfg pkgPath).2 with
    | Some e => Done (report e t st1)
    | None =>
        Done (fold_left (fun st err => report (PkgErr err) t st)
                        (all_errors (packages_Load sys cfg pkgPath).1) st1)
    end.
Proof.
  intros Hwd Habs. unfold checkPkgFiles, load_config, chosen_wd.
  destruct (String.eqb_spec (workingDir flags) "") as [Hw|Hw].
  - destruct Hwd as [Hwd|Hwd]; [contradiction|].
    destruct (os_Getwd sys) as [wd [e|]]; [discriminate|]. simpl.
    rewrite Habs.
    destruct (packages_Load sys _ pkgPath) as [roots [e|]]; simpl;
      [reflexivity|].
    rewrite report_loop_flat. reflexivity.
  - rewrite Habs.
    destruct (packages_Load sys _ pkgPath) as [roots [e|]]; simpl;
      [reflexivity|].
    rewrite report_loop_flat. reflexivity.
Qed.

(** X8. [getPkgFiles] succeeds exactly for a single argument that
    [os.Stat] accepts and that is a directory or, with [-pkg-context], a
    file; the target file is then empty for a directory and the argument
    itself for a file. Every other call, also one with no argument or
    with several file names, returns empty strings and an error: the
    one of [os.Stat], or "cannot specify more than one path". *)
Theorem getPkgFiles_outcomes (args : list string) (useContext : bool) :
  let r := getPkgFiles sys args useContext in
  (r.2 = None
   <-> exists path,
        args = [path]
        /\ (os_Stat sys path).2 = None
        /\ (IsDir (os_Stat sys path).1 = true \/ useContext = true))
  /\ (r.2 = None ->
      exists path,
        args = [path]
        /\ r.1.2 = if IsDir (os_Stat sys path).1 then "" else path)
  /\ (r.2 <> None ->
      r.1 = ("", "")
      /\ (r.2 = Some (Errorf "cannot specify more than one path")
          \/ exists path, args = [path] /\ r.2 = (os_Stat sys path).2)).
Proof.
  cbv zeta. unfold getPkgFiles.
  destruct args as [|path [|more rest]]; simpl.
  - split; [split; [discriminate | intros (p & Hp & _); discriminate]|].
    split; [discriminate|]. intros _. split; [reflexivity | left; reflexivity].
  - destruct (os_Stat sys path) as [info [e|]] eqn:Hs; simpl.
    + split; [split; [discriminate|]|].
      { intros (p & [= <-] & Hp & _). rewrite Hs in Hp. discriminate. }
      split; [discriminate|]. intros _. split; [reflexivity|].
      right. exists path. rewrite Hs. split; reflexivity.
    + destruct (IsDir info) eqn:Hdir; simpl.
      * split; [split; [intros _; exists path; rewrite Hs; simpl; auto
                       | reflexivity]|].
        split; [intros _; exists path; rewrite Hs; simpl; rewrite Hdir; auto|].
        intros H; congruence.
      * destruct useContext; simpl.
        -- split; [split; [intros _; exists path; rewrite Hs; simpl; auto
                          | reflexivity]|].
           split; [intros _; exists path; rewrite Hs; simpl; rewrite Hdir; auto|].
           intros H; congruence.
        -- split; [split; [discriminate|]|].
           { intros (p & [= <-] & _ & [Hd|Hu]); [|discriminate].
             rewrite Hs in Hd. simpl in Hd. congruence. }
           split; [discriminate|]. intros _.
           split; [reflexivity | left; reflexivity].
  - split; [split; [discriminate | intros (p & Hp & _); discriminate]|].
    split; [discriminate|]. intros _. split; [reflexivity | left; reflexivity].
Qed.

Lemma filter_none {A : Type} (f : A -> bool) (l : list A) :
  (forall x, In x l -> f x = false) -> List.filter f l = [].
Proof.
  induction l as [|x l IH]; intros Hall; simpl; [reflexivity|].
  rewrite (Hall x) by (left; reflexivity).
  apply IH. intros y Hy. apply Hall. right. exact Hy.
Qed.

(** Once the package is loaded, [checkPkgFiles] is one pass of [report]
    over its errors. *)
Lemma checkPkgFiles_pass
    (pkgPath targetFile : string) (st : RunState) (t : string)
    (roots : list RootPackage) :
  workingDir flags <> "" \/ (os_Getwd sys).2 = None ->
  filepath_Abs sys targetFile = (t, None) ->
  packages_Load sys (load_config sys flags targetFile) pkgPath
  = (roots, None) ->
  checkPkgFiles sys flags pkgPath targetFile st
  = Done (fold_left (fun st err => report (PkgErr err) t st)
            (all_errors roots)
            (mkRunState (errorCount st) (stderr st)
               (loads st
                ++ [(load_config sys flags targetFile, pkgPath)])%list)).
Proof.
  intros Hwd Habs Hload.
  rewrite (checkPkgFiles_loads pkgPath targetFile st t Hwd Habs).
  cbv zeta. rewrite Hload. reflexivity.
Qed.

(** X9. When the working directory is known, [filepath.Abs] turns the
    target file into [t] and [packages.Load] succeeds, [checkPkgFiles]
    returns, and what it has written is exactly the admitted errors of
    the loaded roots: root by root and, within a root, in the order of
    its [Errors], each error once, those that [report] drops skipped;
    the counter has grown by their number. *)
Theorem checkPkgFiles_prints_filtered
    (pkgPath targetFile : string) (st : RunState) (t : string)
    (roots : list RootPackage) :
  workingDir flags <> "" \/ (os_Getwd sys).2 = None ->
  filepath_Abs sys targetFile = (t, None) ->
  packages_Load sys (load_config sys flags targetFile) pkgPath
  = (roots, None) ->
  - 2 ^ 63 <= errorCount st < 2 ^ 63 ->
  let shown :=
    List.filter (fun e => admits (PkgErr e) t) (all_errors roots) in
  exists st',
    checkPkgFiles sys flags pkgPath targetFile st = Done st'
    /\ stderr st'
       = (stderr st
          ++ List.map (fun e => Error_string (PkgErr e)) shown)%list
    /\ errorCount st'
       = int_wrap (errorCount st + Z.of_nat (List.length shown)).
Proof.
  intros Hwd Habs Hload Hrange shown.
  unfold checkPkgFiles.
  assert (Hwdir :
            (if String.eqb (workingDir flags) ""
             then match os_Getwd sys with
                  | (_, Some e) => Panic (Error_string e)
                  | (wd, None) => Done wd
                  end
             else Done (workingDir flags))
            = Done (chosen_wd sys flags)).
  { unfold chosen_wd.
    destruct (String.eqb_spec (workingDir flags) "") as [Hw|Hw];
      [|reflexivity].
    destruct Hwd as [Hwd|Hwd]; [contradiction|].
    destruct (os_Getwd sys) as [wd [e|]]; [discriminate | reflexivity]. }
  rewrite Hwdir, Habs.
  unfold load_config in Hload. rewrite Hload.
  rewrite report_loop_flat.
  eexists. split; [reflexivity|].
  apply (report_pass_total t (all_errors roots)
           (mkRunState (errorCount st) (stderr st)
              (loads st
               ++ [(mkPackagesConfig (chosen_wd sys flags) LoadTypes
                      (includeTests flags targetFile), pkgPath)])%list)).
  exact Hrange.
Qed.

(** X10. With a directory as the only argument the target file is
    empty, but the restriction that reaches [report] is what
    [filepath.Abs] makes of the empty path. When that is a non-empty
    string [t] (the working directory) and no error of the loaded
    package has [t] as the file part of its position, nothing is
    printed, however many errors the package has, and the exit status
    is 0. *)
Theorem directory_mode_prints_nothing
    (dir : string) (info : FileInfo) (t : string)
    (roots : list RootPackage) :
  os_Stat sys dir = (info, None) ->
  IsDir info = true ->
  workingDir flags <> "" \/ (os_Getwd sys).2 = None ->
  filepath_Abs sys "" = (t, None) ->
  t <> "" ->
  packages_Load sys (load_config sys flags "") dir = (roots, None) ->
  (forall e, In e (all_errors roots) -> file_part (Pos e) <> t) ->
  stderr (main sys flags [dir]).2 = []
  /\ errorCount (main sys flags [dir]).2 = 0
  /\ exit_status (main sys flags [dir]).1 = 0.
Proof.
  intros Hstat Hdir Hwd Habs Ht Hload Hfiles.
  assert (Hshown :
            List.filter (fun e => admits (PkgErr e) t) (all_errors roots)
            = []).
  { apply filter_none. intros e He. unfold admits.
    destruct (String.eqb_spec t "") as [|_]; [contradiction|]. simpl.
    apply String.eqb_neq. apply (Hfiles e He). }
  pose proof (checkPkgFiles_pass dir "" start t roots Hwd Habs Hload)
    as Hrun.
  match type of Hrun with
  | _ = Done (fold_left ?f ?es ?s0) =>
      destruct (report_pass_total t es s0) as (Herr & Hcount);
      [simpl; lia|];
      set (st' := fold_left f es s0) in *
  end.
  rewrite Hshown in Herr, Hcount. simpl in Herr, Hcount.
  unfold main, getPkgFiles. simpl. rewrite Hstat, Hdir. simpl.
  rewrite Hrun, Hcount. simpl. repeat split; assumption.
Qed.

(** X11. Under a restriction path that contains a [":"], [report]
    drops every [packages.Error], whatever its position: the file part
    it compares is cut at the first [":"] and so never contains one. *)
Theorem report_colon_restriction
    (e : PackagesError) (a b : string) (st : RunState) :
  report (PkgErr e) (a ++ String ":" b) st = st.
Proof.
  rewrite report_admits. unfold admits.
  destruct (String.eqb_spec (a ++ String ":" b) "") as [Hnil|_].
  - destruct a; [rewrite append_nil_l in Hnil | rewrite append_cons in Hnil];
      discriminate.
  - simpl.
    destruct (String.eqb_spec (hd "" (Split (Pos e) ":"))
                              (a ++ String ":" b)) as [Heq|_];
      [|reflexivity].
    exfalso. eapply Split_head_free, Heq.
Qed.

(** X12. [checkPkgFiles] panics exactly when [-w] is empty and
    [os.Getwd] fails, with that error's text as the panic value. When
    it does not panic and [filepath.Abs] succeeds, what it returns is
    what [report] makes of the one call of [packages.Load] for the
    given package path, in mode [LoadTypes] and with, as directory, the
    value of [-w] when that is non-empty and the directory returned by
    [os.Getwd] otherwise. *)
Theorem checkPkgFiles_working_dir
    (pkgPath targetFile : string) (st : RunState) :
  let loaded_in (dir t : string) : Ending RunState :=
    let cfg :=
      mkPackagesConfig dir LoadTypes (includeTests flags targetFile) in
    let st1 := mkRunState (errorCount st) (stderr st)
                          (loads st ++ [(cfg, pkgPath)])%list in
    match packages_Load sys cfg pkgPath with
    | (_, Some e) => Done (report e t st1)
    | (roots, None) =>
        Done (fold_left (fun st err => report (PkgErr err) t st)
                        (all_errors roots) st1)
    end in
  (forall msg,
      checkPkgFiles sys flags pkgPath targetFile st = Panic msg
      <-> workingDir flags = ""
          /\ exists e, (os_Getwd sys).2 = Some e /\ msg = Error_string e)
  /\ (forall t,
         filepath_Abs sys targetFile = (t, None) ->
         workingDir flags <> "" ->
         checkPkgFiles sys flags pkgPath targetFile st
         = loaded_in (workingDir flags) t)
  /\ (forall t wd,
         filepath_Abs sys targetFile = (t, None) ->
         workingDir flags = "" ->
         os_Getwd sys = (wd, None) ->
         checkPkgFiles sys flags pkgPath targetFile st = loaded_in wd t).
Proof.
  cbv zeta. split; [|split].
  - intros msg. unfold checkPkgFiles.
    destruct (String.eqb_spec (workingDir flags) "") as [Hw|Hw].
    + destruct (os_Getwd sys) as [wd [e|]]; simpl.
      * split.
        -- intros [= <-]. split; [exact Hw|]. exists e. auto.
        -- intros (_ & e' & [= <-] & ->). reflexivity.
      * split.
        -- destruct (filepath_Abs sys targetFile) as [t [e|]];
             [discriminate|].
           destruct (packages_Load sys _ pkgPath) as [roots [e|]];
             discriminate.
        -- intros (_ & e' & He & _). discriminate.
    + split.
      * destruct (filepath_Abs sys targetFile) as [t [e|]];
          [discriminate|].
        destruct (packages_Load sys _ pkgPath) as [roots [e|]];
          discriminate.
      * intros (Hw' & _). contradiction.
  - intros t Habs Hw.
    rewrite (checkPkgFiles_loads pkgPath targetFile st t (or_introl Hw) Habs).
    unfold load_config, chosen_wd.
    destruct (String.eqb_spec (workingDir flags) "") as [Hw'|_];
      [contradiction|].
    cbv zeta.
    destruct (packages_Load sys _ pkgPath) as [roots [e|]]; reflexivity.
  - intros t wd Habs Hw Hget.
    assert (Hknown : workingDir flags <> "" \/ (os_Getwd sys).2 = None)
      by (right; rewrite Hget; reflexivity).
    rewrite (checkPkgFiles_loads pkgPath targetFile st t Hknown Habs).
    unfold load_config, chosen_wd.
    rewrite Hw, Hget. simpl. cbv zeta.
    destruct (packages_Load sys _ pkgPath) as [roots [e|]]; reflexivity.
Qed.

(** X13. When [getPkgFiles] has accepted the arguments, the working
    directory is known, the target path has been made absolute and
    [packages.Load] itself fails with an error that is not a
    [packages.Error], [main] prints that one error, whatever the
    restriction is, and exits with status 2. *)
Theorem main_load_failure
    (args : list string) (pkgPath targetFile t msg : string)
    (roots : list RootPackage) :
  getPkgFiles sys args (usePkgContext flags)
  = (pkgPath, targetFile, None) ->
  workingDir flags <> "" \/ (os_Getwd sys).2 = None ->
  filepath_Abs sys targetFile = (t, None) ->
  packages_Load sys (load_config sys flags targetFile) pkgPath
  = (roots, Some (OtherErr msg)) ->
  main sys flags args
  = (os_Exit 2,
     mkRunState 1 [msg] [(load_config sys flags targetFile, pkgPath)]).
Proof.
  intros Hargs Hwd Habs Hload.
  unfold main. rewrite Hargs.
  rewrite (checkPkgFiles_loads pkgPath targetFile start t Hwd Habs).
  cbv zeta. rewrite Hload. simpl.
  rewrite report_admits. unfold admits. rewrite orb_true_r.
  reflexivity.
Qed.

(** X14. For a file argument under [-pkg-context] the target file is
    the argument as given and the package path is [filepath.Dir] of it,
    with the leading ["./"] that [filepath.Dir] removes put back: when
    the argument starts with ["./"], so does the package path. *)
Theorem getPkgFiles_keeps_dot_slash (path : string) (info : FileInfo) :
  os_Stat sys path = (info, None) ->
  IsDir info = false ->
  exists pkgPath,
    getPkgFiles sys [path] true = (pkgPath, path, None)
    /\ (HasPrefix path "./" = true ->
        pkgPath = "./" ++ filepath_Dir sys path
        /\ HasPrefix pkgPath "./" = true)
    /\ (HasPrefix path "./" = false -> pkgPath = filepath_Dir sys path).
Proof.
  intros Hstat Hdir. unfold getPkgFiles. simpl. rewrite Hstat, Hdir.
  destruct (HasPrefix path "./") eqn:Hpre; eexists;
    (split; [reflexivity|]); split; intros H; try discriminate.
  - split; [reflexivity | apply HasPrefix_append].
  - reflexivity.
Qed.

(** X15. For a file argument under [-pkg-context], with the working
    directory known, the argument made absolute to a non-empty [t] and
    the package loaded, [main] prints exactly the errors whose position
    has [t] as its file part, in the order they were loaded, counts
    them, and exits with status 0 exactly when there is none (for fewer
    than 2^63 of them). *)
Theorem file_mode_reports_own_errors
    (path : string) (info : FileInfo) (t : string)
    (roots : list RootPackage) :
  let pkgPath :=
    if HasPrefix path "./" then "./" ++ filepath_Dir sys path
    else filepath_Dir sys path in
  let own :=
    List.filter (fun e => String.eqb (file_part (Pos e)) t)
                (all_errors roots) in
  os_Stat sys path = (info, None) ->
  IsDir info = false ->
  usePkgContext flags = true ->
  workingDir flags <> "" \/ (os_Getwd sys).2 = None ->
  filepath_Abs sys path = (t, None) ->
  t <> "" ->
  packages_Load sys (load_config sys flags path) pkgPath = (roots, None) ->
  Z.of_nat (List.length own) < 2 ^ 63 ->
  stderr (main sys flags [path]).2
  = List.map (fun e => Error_string (PkgErr e)) own
  /\ errorCount (main sys flags [path]).2 = Z.of_nat (List.length own)
  /\ (exit_status (main sys flags [path]).1 = 0 <-> own = [])
  /\ (exit_status (main sys flags [path]).1 = 0
      \/ exit_status (main sys flags [path]).1 = 2).
Proof.
  intros pkgPath own Hstat Hdir Huc Hwd Habs Ht Hload Hbound.
  assert (Hown :
            List.filter (fun e => admits (PkgErr e) t) (all_errors roots)
            = own).
  { apply List.filter_ext. intros e. unfold admits, file_part.
    destruct (String.eqb_spec t "") as [|_]; [contradiction|].
    reflexivity. }
  pose proof (checkPkgFiles_pass pkgPath path start t roots Hwd Habs Hload)
    as Hrun.
  match type of Hrun with
  | _ = Done (fold_left ?f ?es ?s0) =>
      destruct (report_pass_total t es s0) as (Herr & Hcount);
      [simpl; lia|];
      set (st' := fold_left f es s0) in *
  end.
  rewrite Hown in Herr, Hcount. simpl in Herr, Hcount.
  rewrite int_wrap_range in Hcount by lia.
  assert (Hmain :
            main sys flags [path]
            = if errorCount st' >? 0 then (os_Exit 2, st')
              else (Returned, st')).
  { unfold main, getPkgFiles. simpl. rewrite Hstat, Hdir, Huc.
    fold pkgPath. rewrite Hrun. reflexivity. }
  rewrite Hmain, Hcount.
  destruct own as [|x xs] eqn:Hx; simpl List.length in *.
  - simpl. rewrite Herr, Hcount. repeat split; auto.
  - replace (Z.of_nat (S (List.length xs)) >? 0) with true
      by (symmetry; apply Z.gtb_lt; lia).
    simpl. rewrite Herr, Hcount. repeat split; auto; discriminate.
Qed.

End DriverExtras.

Section DriverExtrasWitnesses.
Import Driver DriverFacts DriverMore.

Lemma getPkgFiles_outcomes_witness :
  let r := getPkgFiles Bench.sys ["a.go"; "b.go"; "c.go"] true in
  (r.2 = None
   <-> exists path,
        ["a.go"; "b.go"; "c.go"] = [path]
        /\ (os_Stat Bench.sys path).2 = None
        /\ (IsDir (os_Stat Bench.sys path).1 = true \/ true = true))
  /\ (r.2 = None ->
      exists path,
        ["a.go"; "b.go"; "c.go"] = [path]
        /\ r.1.2 = if IsDir (os_Stat Bench.sys path).1 then "" else path)
  /\ (r.2 <> None ->
      r.1 = ("", "")
      /\ (r.2 = Some (Errorf "cannot specify more than one path")
          \/ exists path,
              ["a.go"; "b.go"; "c.go"] = [path]
              /\ r.2 = (os_Stat Bench.sys path).2)).
Proof.
  exact (getPkgFiles_outcomes Bench.sys ["a.go"; "b.go"; "c.go"] true).
Defined.

Lemma checkPkgFiles_prints_filtered_witness :
  exists st',
    checkPkgFiles Bench.sys Bench.flags "." "b.go" start = Done st'
    /\ stderr st' = ["/w/b.go:1:1: undefined: y"]
    /\ errorCount st' = 1.
Proof.
  apply (checkPkgFiles_prints_filtered Bench.sys Bench.flags "." "b.go"
           start "/w/b.go"
           [mkRootPackage [Bench.e_a; Bench.e_b];
            mkRootPackage [Bench.e_rel; Bench.e_pkg]]).
  - right. reflexivity.
  - reflexivity.
  - reflexivity.
  - simpl. lia.
Defined.

Lemma directory_mode_prints_nothing_witness :
  List.length
    (all_errors [mkRootPackage [Bench.e_a; Bench.e_b];
                 mkRootPackage [Bench.e_rel; Bench.e_pkg]]) = 4%nat
  /\ stderr (main Bench.sys Bench.flags ["pkg"]).2 = []
  /\ errorCount (main Bench.sys Bench.flags ["pkg"]).2 = 0
  /\ exit_status (main Bench.sys Bench.flags ["pkg"]).1 = 0.
Proof.
  split; [reflexivity|].
  apply (directory_mode_prints_nothing Bench.sys Bench.flags "pkg"
           (mkFileInfo true) "/w"
           [mkRootPackage [Bench.e_a; Bench.e_b];
            mkRootPackage [Bench.e_rel; Bench.e_pkg]]).
  - reflexivity.
  - reflexivity.
  - right. reflexivity.
  - reflexivity.
  - discriminate.
  - reflexivity.
  - intros e [<-|[<-|[<-|[<-|[]]]]]; discriminate.
Defined.

Lemma checkPkgFiles_working_dir_witness :
  (checkPkgFiles Bench.sys_lost Bench.flags "." "/w/a.go" start
   = Panic "getwd: no such file or directory"
   <-> workingDir Bench.flags = ""
       /\ exists e,
           (os_Getwd Bench.sys_lost).2 = Some e
           /\ "getwd: no such file or directory" = Error_string e)
  /\ checkPkgFiles Bench.sys Bench.flags_w "." "a.go" start
     = Done (mkRunState 1 ["/w/a.go:3:1: undefined: x"]
               [(mkPackagesConfig "/elsewhere" LoadTypes false, ".")])
  /\ checkPkgFiles Bench.sys Bench.flags "." "a.go" start
     = Done (mkRunState 1 ["/w/a.go:3:1: undefined: x"]
               [(mkPackagesConfig "/w" LoadTypes false, ".")]).
Proof.
  pose proof (checkPkgFiles_working_dir Bench.sys_lost Bench.flags
                "." "/w/a.go" start) as Hlost.
  pose proof (checkPkgFiles_working_dir Bench.sys Bench.flags_w
                "." "a.go" start) as Hw.
  pose proof (checkPkgFiles_working_dir Bench.sys Bench.flags
                "." "a.go" start) as Hcwd.
  cbv zeta in Hlost, Hw, Hcwd.
  split; [apply Hlost|]. split.
  - rewrite (proj1 (proj2 Hw) "/w/a.go" eq_refl); [reflexivity|].
    discriminate.
  - rewrite (proj2 (proj2 Hcwd) "/w/a.go" "/w" eq_refl eq_refl eq_refl).
    reflexivity.
Defined.

Lemma main_load_failure_witness :
  main Bench.sys_down Bench.flags ["a.go"]
  = (os_Exit 2,
     mkRunState 1 ["go list: exit status 1"]
       [(load_config Bench.sys_down Bench.flags "a.go", ".")]).
Proof.
  apply (main_load_failure Bench.sys_down Bench.flags ["a.go"] "." "a.go"
           "/w/a.go" "go list: exit status 1" []).
  - reflexivity.
  - right. reflexivity.
  - reflexivity.
  - reflexivity.
Defined.

Lemma getPkgFiles_keeps_dot_slash_witness :
  exists pkgPath,
    getPkgFiles Bench.sys ["./a.go"] true = (pkgPath, "./a.go", None)
    /\ (HasPrefix "./a.go" "./" = true ->
        pkgPath = "./" ++ filepath_Dir Bench.sys "./a.go"
        /\ HasPrefix pkgPath "./" = true)
    /\ (HasPrefix "./a.go" "./" = false ->
        pkgPath = filepath_Dir Bench.sys "./a.go").
Proof.
  apply (getPkgFiles_keeps_dot_slash Bench.sys "./a.go" (mkFileInfo false));
    reflexivity.
Defined.

Lemma file_mode_reports_own_errors_witness :
  stderr (main Bench.sys Bench.flags ["a.go"]).2
  = ["/w/a.go:3:1: undefined: x"]
  /\ errorCount (main Bench.sys Bench.flags ["a.go"]).2 = 1
  /\ (exit_status (main Bench.sys Bench.flags ["a.go"]).1 = 0
      <-> [Bench.e_a] = [])
  /\ (exit_status (main Bench.sys Bench.flags ["a.go"]).1 = 0
      \/ exit_status (main Bench.sys Bench.flags ["a.go"]).1 = 2).
Proof.
  apply (file_mode_reports_own_errors Bench.sys Bench.flags "a.go"
           (mkFileInfo false) "/w/a.go"
           [mkRootPackage [Bench.e_a; Bench.e_b];
            mkRootPackage [Bench.e_rel; Bench.e_pkg]]).
  - reflexivity.
  - reflexivity.
  - reflexivity.
  - right. reflexivity.
  - reflexivity.
  - discriminate.
  - reflexivity.
  - simpl. lia.
Defined.

End DriverExtrasWitnesses.
